(** * django-elasticache: the auto-discovery memcached backend

    A shallow embedding of [django_elasticache/memcached.py]: the
    [ElastiCache] cache backend, its node-list cache, its client-handle
    cache and the [invalidate_cache_after_error] decorator.

    The backend object is a record, its attributes that exist or not
    ([hasattr]/[getattr] with a default) are [option] fields, and every
    method is a computation in a small state-and-exception monad whose state
    is the object together with the trace of calls made to the collaborators
    the module imports (the discovery helper, pylibmc, Django's base class). *)

From Stdlib Require Import List String Ascii.
From stdpp Require Import base option strings gmap list.

Set Warnings "-register-all".
Open Scope string_scope.
Open Scope list_scope.

(** ** Python values *)

(** The values that flow through the backend untouched: configuration
    entries, node lists, call arguments and results. *)
Inductive PyVal : Type :=
| PyNone
| PyBool (b : bool)
| PyInt (z : Z)
| PyStr (s : string)
| PyList (l : list PyVal)
| PyDict (d : gmap string PyVal).

(** [d.get(key, default)] *)
Definition dict_get (d : gmap string PyVal) (key : string) (dflt : PyVal)
  : PyVal :=
  match d !! key with
  | Some v => v
  | None => dflt
  end.

(** Truth value of a dict: empty is false. *)
Definition dict_truthy (d : gmap string PyVal) : bool :=
  if decide (d = ∅) then false else true.

(** [s.split(sep)] for a one-character separator: never the empty list. *)
Fixpoint split (sep : ascii) (s : string) : list string :=
  match s with
  | EmptyString => [EmptyString]
  | String c rest =>
      if Ascii.eqb c sep then EmptyString :: split sep rest
      else match split sep rest with
           | piece :: pieces => String c piece :: pieces
           | [] => [String c EmptyString]
           end
  end.

(** ** Exceptions *)

(** The exception classes the module names or can meet.  [OtherException]
    stands for any further class below [Exception] that derives from neither
    [socket.gaierror] nor [socket.timeout]; [NonException] for a class
    below [BaseException] only ([KeyboardInterrupt], [SystemExit]). *)
Inductive ExnClass : Type :=
| InvalidCacheBackendError
| socket_gaierror
| socket_timeout
| PlainException
| IndexError
| ValueError
| KeyError
| AttributeError
| OtherException (name : string)
| NonException (name : string).

(** An exception object: its class and [str(err)]. *)
Record PyExn : Type := mkExn { exn_class : ExnClass; exn_str : string }.

(** [except Exception] *)
Definition isinstance_Exception (e : PyExn) : bool :=
  match exn_class e with
  | NonException _ => false
  | _ => true
  end.

(** [except (socket.gaierror, socket.timeout)] *)
Definition isinstance_gaierror_or_timeout (e : PyExn) : bool :=
  match exn_class e with
  | socket_gaierror | socket_timeout => true
  | _ => false
  end.

Inductive Outcome (A : Type) : Type :=
| Return (a : A)
| Raise (e : PyExn).
Arguments Return {A} a.
Arguments Raise {A} e.

(** ** The object and the trace *)

(** A pylibmc client handle: which construction produced it, the server
    list it was built against, and the behaviors assigned to it. *)
Record Client : Type := mkClient {
  client_id : nat;
  client_servers : PyVal;
  client_behaviors : option PyVal
}.

(** [if client:] on a handle.  A pylibmc [Client] defines neither
    [__bool__] nor [__len__], so an instance is true. *)
Definition client_truthy (c : Client) : bool := true.

(** The wrapped cache operations. *)
Inductive OpName : Type := OpGet | OpGetMany | OpSet | OpSetMany | OpDelete.

(** [*args, **kwargs] *)
Definition CallArgs : Type := list PyVal * list (string * PyVal).

(** Calls that leave the module. *)
Inductive Event : Type :=
| EvDiscover (server port : string) (timeout ignore_errors : PyVal)
| EvClient (servers : PyVal)
| EvBehaviors (client : nat) (behaviors : PyVal)
| EvSuper (op : OpName) (args : CallArgs)
| EvClientOp (client : nat) (op : OpName) (args : CallArgs).

Definition is_discover (ev : Event) : bool :=
  match ev with EvDiscover _ _ _ _ => true | _ => false end.
Definition is_client (ev : Event) : bool :=
  match ev with EvClient _ => true | _ => false end.
Definition is_behaviors (ev : Event) : bool :=
  match ev with EvBehaviors _ _ => true | _ => false end.
Definition is_super (ev : Event) : bool :=
  match ev with EvSuper _ _ => true | _ => false end.

Definition count (p : Event -> bool) (w : list Event) : nat :=
  length (List.filter p w).

Definition discoveries : list Event -> nat := count is_discover.
Definition constructions : list Event -> nat := count is_client.
Definition behaviors_applied : list Event -> nat := count is_behaviors.
Definition super_calls : list Event -> nat := count is_super.

(** The [ElastiCache] instance.  [_cluster_nodes_cache] is an attribute that
    is set or deleted; [_local] is the thread-local container Django before
    1.7 creates, holding its own [_client]; [_client] is the attribute on
    the instance itself. *)
Record ElastiCache : Type := mkElastiCache {
  _servers : list string;
  _options : gmap string PyVal;
  _discovery_timeout : PyVal;
  _ignore_cluster_errors : PyVal;
  _cluster_nodes_cache : option PyVal;
  _local : option (option Client);
  _client : option Client
}.

Definition set_cluster_nodes_cache (v : option PyVal) (self : ElastiCache)
  : ElastiCache :=
  mkElastiCache (_servers self) (_options self) (_discovery_timeout self)
    (_ignore_cluster_errors self) v (_local self) (_client self).

(** [getattr(getattr(self, '_local', self), '_client', None)] *)
Definition container_client (self : ElastiCache) : option Client :=
  match _local self with
  | Some container => container
  | None => _client self
  end.

(** [container._client = client] *)
Definition set_container_client (c : Client) (self : ElastiCache)
  : ElastiCache :=
  match _local self with
  | Some _ =>
      mkElastiCache (_servers self) (_options self) (_discovery_timeout self)
        (_ignore_cluster_errors self) (_cluster_nodes_cache self)
        (Some (Some c)) (_client self)
  | None =>
      mkElastiCache (_servers self) (_options self) (_discovery_timeout self)
        (_ignore_cluster_errors self) (_cluster_nodes_cache self)
        None (Some c)
  end.

(** ** The monad of method bodies *)

Definition M (A : Type) : Type :=
  ElastiCache -> list Event -> Outcome A * ElastiCache * list Event.

#[export] Instance M_ret : MRet M := fun A a self w => (Return a, self, w).

#[export] Instance M_bind : MBind M := fun A B k m self w =>
  match m self w with
  | (Return a, self', w') => k a self' w'
  | (Raise e, self', w') => (Raise e, self', w')
  end.

Definition raise {A : Type} (e : PyExn) : M A :=
  fun self w => (Raise e, self, w).

Definition get_self : M ElastiCache := fun self w => (Return self, self, w).

Definition modify_self (f : ElastiCache -> ElastiCache) : M unit :=
  fun self w => (Return tt, f self, w).

Definition history : M (list Event) := fun self w => (Return w, self, w).

Definition emit (ev : Event) : M unit :=
  fun self w => (Return tt, self, w ++ [ev]).

Definition lift_outcome {A : Type} (o : Outcome A) : M A :=
  fun self w => (o, self, w).

(** [try: body  except <classes> as err: handler(err)] *)
Definition try_except {A : Type} (body : M A) (catches : PyExn -> bool)
    (handler : PyExn -> M A) : M A :=
  fun self w =>
    match body self w with
    | (Return a, self', w') => (Return a, self', w')
    | (Raise e, self', w') =>
        if catches e then handler e self' w' else (Raise e, self', w')
    end.

(** ** Construction *)

(** What [super().__init__(server, params)] (Django's [PyLibMCCache])
    leaves on the instance before the body of [ElastiCache.__init__] runs. *)
Record Base : Type := mkBase {
  base_servers : list string;
  base_options : gmap string PyVal;
  base_local : bool
}.

Definition __init__ (base : Base) (params : gmap string PyVal)
    (w : list Event) : Outcome ElastiCache * list Event :=
  if decide (1 < length (base_servers base)) then
    (Raise (mkExn InvalidCacheBackendError
       ("ElastiCache should be configured with only one server " +:+
        "(Configuration Endpoint)")),
     w)
  else
    match base_servers base with
    | [] => (Raise (mkExn IndexError "list index out of range"), w)
    | server0 :: _ =>
        if decide (length (split ":" server0) ≠ 2) then
          (Raise (mkExn InvalidCacheBackendError
             "Server configuration should be in format IP:port"), w)
        else
          (Return
             (mkElastiCache (base_servers base) (base_options base)
                (dict_get params "DISCOVERY_TIMEOUT" PyNone)
                (dict_get (base_options base) "IGNORE_CLUSTER_ERRORS"
                   (PyBool false))
                None
                (if base_local base then Some None else None)
                None),
           w)
    end.

(** ** Collaborators *)

(** The functions the module imports and calls.  [get_cluster_info] is the
    discovery helper of [cluster_utils]; [Client_error] and
    [behaviors_error] say whether pylibmc's [Client(servers)] and the
    assignment [client.behaviors = b] raise.  Each sees the trace so far, so
    that successive calls may answer differently. *)
Record Lib : Type := mkLib {
  get_cluster_info :
    list Event -> string -> string -> PyVal -> PyVal ->
    Outcome (gmap string PyVal);
  Client_error : list Event -> PyVal -> option PyExn;
  behaviors_error : list Event -> Client -> PyVal -> option PyExn
}.

(** [seq[0]] *)
Definition subscript0 (l : list string) : M string :=
  match l with
  | x :: _ => mret x
  | [] => raise (mkExn IndexError "list index out of range")
  end.

(** [a, b = seq] *)
Definition unpack2 (l : list string) : M (string * string) :=
  match l with
  | [a; b] => mret (a, b)
  | [] | [_] => raise (mkExn ValueError "not enough values to unpack")
  | _ => raise (mkExn ValueError "too many values to unpack")
  end.

(** [d[key]] *)
Definition dict_subscript (d : gmap string PyVal) (key : string) : M PyVal :=
  match d !! key with
  | Some v => mret v
  | None => raise (mkExn KeyError ("'" +:+ key +:+ "'"))
  end.

(** ** Methods of [ElastiCache] *)

Definition clear_cluster_nodes_cache : M unit :=
  self ← get_self;
  match _cluster_nodes_cache self with
  | Some _ => modify_self (set_cluster_nodes_cache None)
  | None => mret tt
  end.

Definition cannot_connect (server0 : string) (err : PyExn) : PyExn :=
  mkExn PlainException
    ("Cannot connect to cluster " +:+ server0 +:+ " (" +:+ exn_str err +:+ ")").

Section Discovery.
Variable lib : Lib.

Definition call_get_cluster_info (server port : string)
    (timeout ignore_errors : PyVal) : M (gmap string PyVal) :=
  fun self w =>
    (get_cluster_info lib w server port timeout ignore_errors, self,
     w ++ [EvDiscover server port timeout ignore_errors]).

Definition get_cluster_nodes : M PyVal :=
  self ← get_self;
  match _cluster_nodes_cache self with
  | None =>
      server0 ← subscript0 (_servers self);
      '(server, port) ← unpack2 (split ":" server0);
      try_except
        (info ← call_get_cluster_info server port
                  (_discovery_timeout self) (_ignore_cluster_errors self);
         nodes ← dict_subscript info "nodes";
         modify_self (set_cluster_nodes_cache (Some nodes)))
        isinstance_gaierror_or_timeout
        (fun err =>
           server0' ← subscript0 (_servers self);
           raise (cannot_connect server0' err))
  | Some _ => mret tt
  end;;
  self ← get_self;
  match _cluster_nodes_cache self with
  | Some nodes => mret nodes
  | None =>
      raise (mkExn AttributeError
               "'ElastiCache' object has no attribute '_cluster_nodes_cache'")
  end.

(** [self._lib.Client(servers)] *)
Definition lib_Client (servers : PyVal) : M Client :=
  fun self w =>
    (match Client_error lib w servers with
     | Some e => Raise e
     | None => Return (mkClient (constructions w) servers None)
     end, self, w ++ [EvClient servers]).

(** [client.behaviors = b] *)
Definition set_behaviors (c : Client) (b : PyVal) : M Client :=
  fun self w =>
    (match behaviors_error lib w c b with
     | Some e => Raise e
     | None => Return (mkClient (client_id c) (client_servers c) (Some b))
     end, self, w ++ [EvBehaviors (client_id c) b]).

(** Lines 86 to 95 of the [_cache] property: no usable handle is cached. *)
Definition new_client : M Client :=
  nodes ← get_cluster_nodes;
  client ← lib_Client nodes;
  self ← get_self;
  client ← (if dict_truthy (_options self) then
              set_behaviors client
                (dict_get (_options self) "behaviors"
                   (PyDict (_options self)))
            else mret client);
  modify_self (set_container_client client);;
  mret client.

Definition _cache : M Client :=
  self ← get_self;
  match container_client self with
  | Some client => if client_truthy client then mret client else new_client
  | None => new_client
  end.

(** An underlying method the way Django's memcached base class writes the
    five of them: fetch the handle through [self._cache], then call the
    handle; [client_op] is what the handle answers. *)
Definition call_client
    (client_op : list Event -> Client -> OpName -> CallArgs -> Outcome PyVal)
    (client : Client) (op : OpName) (args : CallArgs) : M PyVal :=
  fun self w =>
    (client_op w client op args, self,
     w ++ [EvClientOp (client_id client) op args]).

Definition via_cache
    (client_op : list Event -> Client -> OpName -> CallArgs -> Outcome PyVal)
    (op : OpName) (args : CallArgs) : M PyVal :=
  client ← _cache;
  call_client client_op client op args.
End Discovery.

(** ** The decorator and the wrapped operations *)

Definition invalidate_cache_after_error {A : Type} (f : M A) : M A :=
  try_except f isinstance_Exception
    (fun e => clear_cluster_nodes_cache;; raise e).

Section Operations.
(** The methods of the base class, [super(ElastiCache, self).<op>]. *)
Variable base : OpName -> CallArgs -> M PyVal.

Definition super_method (op : OpName) (args : CallArgs) : M PyVal :=
  emit (EvSuper op args);; base op args.

Definition get (args : CallArgs) : M PyVal :=
  invalidate_cache_after_error (super_method OpGet args).

Definition get_many (args : CallArgs) : M PyVal :=
  invalidate_cache_after_error (super_method OpGetMany args).

Definition set (args : CallArgs) : M PyVal :=
  invalidate_cache_after_error (super_method OpSet args).

Definition set_many (args : CallArgs) : M PyVal :=
  invalidate_cache_after_error (super_method OpSetMany args).

Definition delete (args : CallArgs) : M PyVal :=
  invalidate_cache_after_error (super_method OpDelete args).

Definition operation (op : OpName) : CallArgs -> M PyVal :=
  match op with
  | OpGet => get
  | OpGetMany => get_many
  | OpSet => set
  | OpSetMany => set_many
  | OpDelete => delete
  end.
End Operations.

(** ** Vocabulary of the statements *)

(** [part] occurs in [msg]. *)
Definition contains (msg part : string) : Prop :=
  exists before after, msg = before +:+ part +:+ after.

(** The assignment [client.behaviors = ...] of line 91, when it happens. *)
Definition configured_behaviors (self : ElastiCache) : option PyVal :=
  if dict_truthy (_options self) then
    Some (dict_get (_options self) "behaviors" (PyDict (_options self)))
  else None.

(** The handle that lines 86 to 95 build from a node list when pylibmc
    raises nothing, and the calls made to build it; [w1] is the trace when
    the construction starts. *)
Definition built_client (self : ElastiCache) (w1 : list Event)
    (nodes : PyVal) : Client :=
  mkClient (constructions w1) nodes (configured_behaviors self).

Definition build_calls (self : ElastiCache) (w1 : list Event)
    (nodes : PyVal) : list Event :=
  EvClient nodes ::
  match configured_behaviors self with
  | Some b => [EvBehaviors (constructions w1) b]
  | None => []
  end.

Definition is_cached {A : Type} (slot : option A) : bool :=
  match slot with Some _ => true | None => false end.

(** ** A sample deployment *)

(** One configuration endpoint, a cluster of two nodes that grows to three
    after the first discovery, and a handle whose [get] fails. *)
Module Sample.
Definition endpoint : string := "cfg.example.com:11211".

Definition nodes1 : PyVal :=
  PyList [PyStr "10.0.0.1:11211"; PyStr "10.0.0.2:11211"].

Definition nodes2 : PyVal :=
  PyList [PyStr "10.0.0.1:11211"; PyStr "10.0.0.2:11211";
          PyStr "10.0.0.3:11211"].

Definition behaviors : gmap string PyVal := {[ "tcp_nodelay" := PyBool true ]}.

Definition options : gmap string PyVal := {[ "behaviors" := PyDict behaviors ]}.

Definition base : Base := mkBase [endpoint] options false.

Definition params : gmap string PyVal := ∅.

Definition lib : Lib :=
  mkLib
    (fun w _ _ _ _ =>
       Return {[ "nodes" := if decide (discoveries w = 0) then nodes1
                            else nodes2 ]})
    (fun _ _ => None)
    (fun _ _ _ => None).

Definition gai : PyExn :=
  mkExn socket_gaierror "[Errno -2] Name or service not known".

Definition refused : PyExn :=
  mkExn (OtherException "ConnectionRefusedError")
    "[Errno 111] Connection refused".

Definition pylibmc_error : PyExn :=
  mkExn (OtherException "pylibmc.Error") "error 3 from memcached_get".

(** Discovery cannot resolve the endpoint. *)
Definition lib_unresolvable : Lib :=
  mkLib (fun _ _ _ _ _ => Raise gai) (fun _ _ => None) (fun _ _ _ => None).

(** Discovery is refused by the endpoint. *)
Definition lib_refused : Lib :=
  mkLib (fun _ _ _ _ _ => Raise refused) (fun _ _ => None)
    (fun _ _ _ => None).

Definition interrupted : PyExn := mkExn (NonException "KeyboardInterrupt") "".

(** The handle answers every [get] with an error, every [delete] is
    interrupted from the keyboard, and everything else answers [True]. *)
Definition client_op (w : list Event) (c : Client) (op : OpName)
    (args : CallArgs) : Outcome PyVal :=
  match op with
  | OpGet => Raise pylibmc_error
  | OpDelete => Raise interrupted
  | _ => Return (PyBool true)
  end.

Definition methods : OpName -> CallArgs -> M PyVal := via_cache lib client_op.

Definition key_k : CallArgs := ([PyStr "k"], []).
Definition set_k_v : CallArgs := ([PyStr "k"; PyStr "v"], []).

(** The instance [__init__] builds. *)
Definition cold : ElastiCache :=
  mkElastiCache [endpoint] options PyNone (PyBool false) None None None.

Definition client0 : Client :=
  mkClient 0 nodes1 (Some (PyDict behaviors)).

(** The instance after one successful operation. *)
Definition warm : ElastiCache :=
  mkElastiCache [endpoint] options PyNone (PyBool false) (Some nodes1) None
    (Some client0).

Definition warm_trace : list Event :=
  [EvSuper OpSet set_k_v;
   EvDiscover "cfg.example.com" "11211" PyNone (PyBool false);
   EvClient nodes1;
   EvBehaviors 0 (PyDict behaviors);
   EvClientOp 0 OpSet set_k_v].

(** The instance after a failed [get] on [warm]. *)
Definition after_error : ElastiCache :=
  mkElastiCache [endpoint] options PyNone (PyBool false) None None
    (Some client0).
End Sample.

(** ** Strings of endpoints *)

(** How many times [sep] occurs in [s]. *)
Fixpoint occurrences (sep : ascii) (s : string) : nat :=
  match s with
  | EmptyString => 0
  | String c rest =>
      (if Ascii.eqb c sep then 1 else 0) + occurrences sep rest
  end.

(** [sep.join(pieces)] for a one-character separator. *)
Fixpoint join (sep : ascii) (pieces : list string) : string :=
  match pieces with
  | [] => EmptyString
  | [piece] => piece
  | piece :: rest => piece +:+ String sep (join sep rest)
  end.

(** ** Deployments that fail *)

Module Faulty.
(** pylibmc refuses the server list. *)
Definition bad_servers : PyExn :=
  mkExn (OtherException "TypeError") "an iterable of servers is required".

Definition lib_bad_servers : Lib :=
  mkLib (fun _ _ _ _ _ => Return {[ "nodes" := Sample.nodes1 ]})
    (fun _ _ => Some bad_servers) (fun _ _ _ => None).

(** pylibmc refuses the behaviors. *)
Definition bad_behaviors : PyExn :=
  mkExn (OtherException "ValueError") "unknown behavior names: tcp_nodelay".

Definition lib_bad_behaviors : Lib :=
  mkLib (fun _ _ _ _ _ => Return {[ "nodes" := Sample.nodes1 ]})
    (fun _ _ => None) (fun _ _ _ => Some bad_behaviors).

(** Discovery times out. *)
Definition timed_out : PyExn := mkExn socket_timeout "timed out".

Definition lib_timeout : Lib :=
  mkLib (fun _ _ _ _ _ => Raise timed_out) (fun _ _ => None)
    (fun _ _ _ => None).

(** The sample instance with its node list known and no handle yet. *)
Definition discovered : ElastiCache :=
  mkElastiCache [Sample.endpoint] Sample.options PyNone (PyBool false)
    (Some Sample.nodes1) None None.

Definition discovery_call : Event :=
  EvDiscover "cfg.example.com" "11211" PyNone (PyBool false).

(** An instance of Django before 1.7: a thread-local container, and a stray
    handle on the instance itself. *)
Definition stray : Client := mkClient 7 (PyList []) None.

Definition cold_local : ElastiCache :=
  mkElastiCache [Sample.endpoint] Sample.options PyNone (PyBool false) None
    (Some None) (Some stray).

(** Options that put the flag beside the behaviors, and options without a
    [behaviors] entry. *)
Definition flat_options : gmap string PyVal :=
  {[ "IGNORE_CLUSTER_ERRORS" := PyBool true ]}.

Definition cold_flat : ElastiCache :=
  mkElastiCache [Sample.endpoint] flat_options PyNone (PyBool true) None None
    None.
End Faulty.

(** * Properties *)

(** ** Counting events *)

Lemma count_app (p : Event -> bool) (w d : list Event) :
  count p (w ++ d) = count p w + count p d.
Proof. unfold count. rewrite List.filter_app, length_app. reflexivity. Qed.

Lemma count_nil (p : Event -> bool) : count p [] = 0.
Proof. reflexivity. Qed.

(** Unfold one layer of the monad. *)
Ltac run :=
  cbv [mbind M_bind mret M_ret raise get_self modify_self emit history
       lift_outcome try_except subscript0 unpack2 dict_subscript].

(** ** The node-list cache *)

Lemma set_cluster_nodes_cache_id (self : ElastiCache) :
  set_cluster_nodes_cache (_cluster_nodes_cache self) self = self.
Proof. destruct self; reflexivity. Qed.

Lemma clear_cluster_nodes_cache_run (self : ElastiCache) (w : list Event) :
  clear_cluster_nodes_cache self w
  = (Return tt, set_cluster_nodes_cache None self, w).
Proof.
  unfold clear_cluster_nodes_cache; run.
  destruct (_cluster_nodes_cache self) eqn:Hc; [reflexivity|].
  rewrite <- Hc, set_cluster_nodes_cache_id. reflexivity.
Qed.

Section DiscoveryFacts.
Variable lib : Lib.

(** A cache hit: the stored list, no call. *)
Lemma get_cluster_nodes_hit (self : ElastiCache) (w : list Event)
    (nodes : PyVal) :
  _cluster_nodes_cache self = Some nodes ->
  get_cluster_nodes lib self w = (Return nodes, self, w).
Proof.
  intros Hc. unfold get_cluster_nodes; run.
  rewrite Hc; cbn. rewrite Hc. reflexivity.
Qed.

(** A cache miss on a well-formed endpoint, spelt out by what the discovery
    helper answers. *)
Lemma get_cluster_nodes_miss (self : ElastiCache) (w : list Event)
    (server0 : string) (rest : list string) (server port : string) :
  _cluster_nodes_cache self = None ->
  _servers self = server0 :: rest ->
  split ":" server0 = [server; port] ->
  get_cluster_nodes lib self w
  = let call :=
      EvDiscover server port (_discovery_timeout self)
        (_ignore_cluster_errors self) in
    match get_cluster_info lib w server port (_discovery_timeout self)
            (_ignore_cluster_errors self) with
    | Return info =>
        match info !! "nodes" with
        | Some nodes =>
            (Return nodes, set_cluster_nodes_cache (Some nodes) self,
             w ++ [call])
        | None => (Raise (mkExn KeyError "'nodes'"), self, w ++ [call])
        end
    | Raise err =>
        (Raise (if isinstance_gaierror_or_timeout err
                then cannot_connect server0 err else err),
         self, w ++ [call])
    end.
Proof.
  intros Hc Hs Hsplit. unfold get_cluster_nodes, call_get_cluster_info; run.
  rewrite Hc, Hs, Hsplit. cbn.
  destruct (get_cluster_info lib w server port _ _) as [info|err].
  - destruct (info !! "nodes") as [nodes|]; reflexivity.
  - destruct (isinstance_gaierror_or_timeout err); reflexivity.
Qed.

(** Whatever a call does, it appends at most one discovery call to the
    trace, made with the stored timeout and flag, and touches nothing but
    the node-list cache. *)
Lemma get_cluster_nodes_trace (self : ElastiCache) (w : list Event)
    (r : Outcome PyVal) (self1 : ElastiCache) (w1 : list Event) :
  get_cluster_nodes lib self w = (r, self1, w1) ->
  (w1 = w /\ self1 = self /\
     (_cluster_nodes_cache self = None -> exists e, r = Raise e))
  \/ (exists server port,
        _cluster_nodes_cache self = None /\
        w1 = w ++ [EvDiscover server port (_discovery_timeout self)
                     (_ignore_cluster_errors self)] /\
        (self1 = self \/
         exists nodes, r = Return nodes /\
           self1 = set_cluster_nodes_cache (Some nodes) self)).
Proof.
  destruct (_cluster_nodes_cache self) as [nodes|] eqn:Hc.
  - rewrite (get_cluster_nodes_hit _ _ nodes Hc). intros [= <- <- <-].
    left. repeat split; auto. discriminate.
  - destruct (_servers self) as [|server0 rest] eqn:Hs.
    { unfold get_cluster_nodes; run. rewrite Hc, Hs. intros [= <- <- <-].
      left. repeat split; eauto. }
    destruct (split ":" server0) as [|server [|port [|x xs]]] eqn:Hsplit.
    1,2,4: unfold get_cluster_nodes; run; rewrite Hc, Hs, Hsplit;
           intros [= <- <- <-]; left; repeat split; eauto.
    rewrite (get_cluster_nodes_miss _ _ _ _ _ _ Hc Hs Hsplit). cbn zeta.
    intros H. right. exists server, port. split; [reflexivity|].
    destruct (get_cluster_info lib w server port _ _) as [info|err].
    + destruct (info !! "nodes") as [nodes|];
        injection H as <- <- <-; split; eauto.
    + injection H as <- <- <-. split; eauto.
Qed.
End DiscoveryFacts.

(** ** The client-handle cache *)

Lemma container_client_set_nodes (v : option PyVal) (self : ElastiCache) :
  container_client (set_cluster_nodes_cache v self) = container_client self.
Proof. reflexivity. Qed.

Lemma container_client_set (c : Client) (self : ElastiCache) :
  container_client (set_container_client c self) = Some c.
Proof.
  unfold container_client, set_container_client.
  destruct (_local self); reflexivity.
Qed.

Section ClientFacts.
Variable lib : Lib.

(** A handle is cached: it is returned, nothing is called. *)
Lemma _cache_hit (self : ElastiCache) (w : list Event) (c : Client) :
  container_client self = Some c ->
  _cache lib self w = (Return c, self, w).
Proof. intros Hc. unfold _cache; run. rewrite Hc. reflexivity. Qed.

Lemma _cache_miss (self : ElastiCache) (w : list Event) :
  container_client self = None ->
  _cache lib self w = new_client lib self w.
Proof. intros Hc. unfold _cache; run. rewrite Hc. reflexivity. Qed.

Lemma get_cluster_nodes_options (self : ElastiCache) (w : list Event)
    (r : Outcome PyVal) (self1 : ElastiCache) (w1 : list Event) :
  get_cluster_nodes lib self w = (r, self1, w1) ->
  _options self1 = _options self /\ _local self1 = _local self /\
  _client self1 = _client self.
Proof.
  intros H. apply get_cluster_nodes_trace in H.
  destruct H as [(_ & -> & _)|(server & port & _ & _ & [->|(n & _ & ->)])];
    auto.
Qed.

Lemma new_client_run (self : ElastiCache) (w : list Event) (nodes : PyVal)
    (self1 : ElastiCache) (w1 : list Event) :
  get_cluster_nodes lib self w = (Return nodes, self1, w1) ->
  Client_error lib w1 nodes = None ->
  (forall b,
     configured_behaviors self = Some b ->
     behaviors_error lib (w1 ++ [EvClient nodes])
       (mkClient (constructions w1) nodes None) b = None) ->
  new_client lib self w
  = (Return (built_client self w1 nodes),
     set_container_client (built_client self w1 nodes) self1,
     w1 ++ build_calls self w1 nodes).
Proof.
  intros Hn Hc Hb.
  destruct (get_cluster_nodes_options _ _ _ _ _ Hn) as (Ho & _ & _).
  unfold new_client, lib_Client, set_behaviors, built_client, build_calls,
    configured_behaviors in *.
  run. rewrite Hn, Hc, Ho.
  destruct (dict_truthy (_options self)) eqn:Ht; cbn.
  - rewrite (Hb _ eq_refl). cbn. rewrite <- app_assoc. reflexivity.
  - reflexivity.
Qed.

(** Every handle that [new_client] returns cost exactly one construction,
    and the discovery calls are those of [get_cluster_nodes]. *)
Lemma new_client_counts (self : ElastiCache) (w : list Event) (c : Client)
    (self2 : ElastiCache) (w2 : list Event) :
  new_client lib self w = (Return c, self2, w2) ->
  constructions w2 = S (constructions w) /\
  discoveries w2
  = discoveries w + (if is_cached (_cluster_nodes_cache self) then 0 else 1)
  /\
  behaviors_applied w2
  = behaviors_applied w + (if dict_truthy (_options self) then 1 else 0) /\
  container_client self2 = Some c.
Proof.
  unfold new_client, lib_Client, set_behaviors. run.
  destruct (get_cluster_nodes lib self w) as [[[nodes|e] self1] w1] eqn:Hn;
    [|discriminate].
  destruct (get_cluster_nodes_options _ _ _ _ _ Hn) as (Ho & _ & _).
  assert (Hw : constructions w1 = constructions w /\
               behaviors_applied w1 = behaviors_applied w /\
               discoveries w1
               = discoveries w
                 + (if is_cached (_cluster_nodes_cache self) then 0 else 1)).
  { apply get_cluster_nodes_trace in Hn.
    destruct Hn as [(-> & _ & Hr)|(server & port & Hc & -> & _)].
    - destruct (_cluster_nodes_cache self); [cbn; repeat split; lia|].
      destruct (Hr eq_refl) as [e He]; discriminate.
    - rewrite Hc.
      unfold constructions, behaviors_applied, discoveries, is_cached.
      rewrite !count_app. cbn. repeat split; lia. }
  destruct Hw as (Hw1 & Hw2 & Hw3).
  destruct (Client_error lib w1 nodes); [discriminate|].
  rewrite Ho.
  destruct (dict_truthy (_options self)) eqn:Ht; cbn.
  - destruct (behaviors_error lib _ _ _); [discriminate|].
    intros [= <- <- <-]. rewrite container_client_set.
    unfold constructions, behaviors_applied, discoveries in *.
    rewrite !count_app. cbn. repeat split; lia.
  - intros [= <- <- <-]. rewrite container_client_set.
    unfold constructions, behaviors_applied, discoveries in *.
    rewrite !count_app. cbn. repeat split; lia.
Qed.
End ClientFacts.

(** ** The decorator *)

Lemma invalidate_cache_after_error_return {A : Type} (f : M A)
    (self : ElastiCache) (w : list Event) (a : A) (self1 : ElastiCache)
    (w1 : list Event) :
  f self w = (Return a, self1, w1) ->
  invalidate_cache_after_error f self w = (Return a, self1, w1).
Proof.
  intros Hf. unfold invalidate_cache_after_error, try_except.
  rewrite Hf. reflexivity.
Qed.

Lemma invalidate_cache_after_error_raise {A : Type} (f : M A)
    (self : ElastiCache) (w : list Event) (e : PyExn) (self1 : ElastiCache)
    (w1 : list Event) :
  f self w = (Raise e, self1, w1) ->
  invalidate_cache_after_error f self w
  = (Raise e,
     if isinstance_Exception e then set_cluster_nodes_cache None self1
     else self1,
     w1).
Proof.
  intros Hf. unfold invalidate_cache_after_error, try_except.
  rewrite Hf. destruct (isinstance_Exception e); [|reflexivity].
  cbv [mbind M_bind]. rewrite clear_cluster_nodes_cache_run. reflexivity.
Qed.

Lemma operation_unfold (base : OpName -> CallArgs -> M PyVal) (op : OpName)
    (args : CallArgs) :
  operation base op args
  = invalidate_cache_after_error (super_method base op args).
Proof. destruct op; reflexivity. Qed.

Lemma super_method_run (base : OpName -> CallArgs -> M PyVal) (op : OpName)
    (args : CallArgs) (self : ElastiCache) (w : list Event) :
  super_method base op args self w = base op args self (w ++ [EvSuper op args]).
Proof. reflexivity. Qed.

(** * The claims *)

(** ** Clearing the node-list cache *)

(** C7. [clear_cluster_nodes_cache] always leaves the node-list cache empty
    and returns normally; on an instance whose node-list cache is already
    clear it changes nothing; and two calls in a row end in the state and
    trace of one call. *)
Theorem clear_cluster_nodes_cache_idempotent (self : ElastiCache)
    (w : list Event) :
  (exists self1,
     clear_cluster_nodes_cache self w = (Return tt, self1, w) /\
     _cluster_nodes_cache self1 = None) /\
  (_cluster_nodes_cache self = None ->
   clear_cluster_nodes_cache self w = (Return tt, self, w)) /\
  (clear_cluster_nodes_cache;; clear_cluster_nodes_cache) self w
  = clear_cluster_nodes_cache self w.
Proof.
  repeat split.
  - exists (set_cluster_nodes_cache None self).
    split; [apply clear_cluster_nodes_cache_run | reflexivity].
  - intros Hc. rewrite clear_cluster_nodes_cache_run, <- Hc.
    rewrite set_cluster_nodes_cache_id. reflexivity.
  - cbv [mbind M_bind]. rewrite !clear_cluster_nodes_cache_run. reflexivity.
Qed.

Lemma clear_cluster_nodes_cache_idempotent_witness :
  _cluster_nodes_cache Sample.cold = None /\
  clear_cluster_nodes_cache Sample.cold [] = (Return tt, Sample.cold, []).
Proof.
  split; [reflexivity|].
  exact (proj1 (proj2 (clear_cluster_nodes_cache_idempotent Sample.cold []))
           eq_refl).
Defined.

(** C9. [clear_cluster_nodes_cache] changes the node-list cache attribute
    and nothing else.  Where a client handle is cached (on the thread-local
    container or on the instance), the same handle is cached afterwards and
    the next [_cache] access returns it without a call to pylibmc or to the
    discovery helper. *)
Theorem clear_cluster_nodes_cache_keeps_client (lib : Lib)
    (self : ElastiCache) (w w2 : list Event) (c : Client) :
  container_client self = Some c ->
  exists self1,
    clear_cluster_nodes_cache self w = (Return tt, self1, w) /\
    self1 = set_cluster_nodes_cache None self /\
    _client self1 = _client self /\
    _local self1 = _local self /\
    _servers self1 = _servers self /\
    _options self1 = _options self /\
    _discovery_timeout self1 = _discovery_timeout self /\
    _ignore_cluster_errors self1 = _ignore_cluster_errors self /\
    container_client self1 = Some c /\
    _cache lib self1 w2 = (Return c, self1, w2).
Proof.
  intros Hc. exists (set_cluster_nodes_cache None self).
  split; [apply clear_cluster_nodes_cache_run|].
  repeat split; try assumption.
  apply _cache_hit. assumption.
Qed.

Lemma clear_cluster_nodes_cache_keeps_client_witness :
  container_client Sample.warm = Some Sample.client0 /\
  exists self1,
    clear_cluster_nodes_cache Sample.warm Sample.warm_trace
    = (Return tt, self1, Sample.warm_trace) /\
    container_client self1 = Some Sample.client0 /\
    _cache Sample.lib self1 Sample.warm_trace
    = (Return Sample.client0, self1, Sample.warm_trace).
Proof.
  split; [reflexivity|].
  destruct (clear_cluster_nodes_cache_keeps_client Sample.lib Sample.warm
              Sample.warm_trace Sample.warm_trace Sample.client0 eq_refl)
    as (self1 & H1 & _ & _ & _ & _ & _ & _ & _ & H2 & H3).
  exists self1. auto.
Defined.

(** ** Discovery *)

(** C2. When [get_cluster_nodes] returns a node list, calling it again on
    the same instance returns that same list and leaves object and trace as
    they are, so that the two calls together made at most one discovery
    call.  If the first call found the list cached, it returned the stored
    list and called nothing; if not, it made one call to
    [get_cluster_info], stored the ['nodes'] entry of the answer and returned
    it. *)
Theorem get_cluster_nodes_idempotent (lib : Lib) (self : ElastiCache)
    (w : list Event) (nodes : PyVal) (self1 : ElastiCache)
    (w1 : list Event) :
  get_cluster_nodes lib self w = (Return nodes, self1, w1) ->
  (forall w2 : list Event,
     get_cluster_nodes lib self1 w2 = (Return nodes, self1, w2)) /\
  discoveries w1 <= S (discoveries w) /\
  _cluster_nodes_cache self1 = Some nodes /\
  match _cluster_nodes_cache self with
  | Some stored => nodes = stored /\ self1 = self /\ w1 = w
  | None =>
      exists server port info,
        get_cluster_info lib w server port (_discovery_timeout self)
          (_ignore_cluster_errors self) = Return info /\
        info !! "nodes" = Some nodes /\
        self1 = set_cluster_nodes_cache (Some nodes) self /\
        w1 = w ++ [EvDiscover server port (_discovery_timeout self)
                     (_ignore_cluster_errors self)]
  end.
Proof.
  intros H.
  assert (Hcase :
    match _cluster_nodes_cache self with
    | Some stored => nodes = stored /\ self1 = self /\ w1 = w
    | None =>
        exists server port info,
          get_cluster_info lib w server port (_discovery_timeout self)
            (_ignore_cluster_errors self) = Return info /\
          info !! "nodes" = Some nodes /\
          self1 = set_cluster_nodes_cache (Some nodes) self /\
          w1 = w ++ [EvDiscover server port (_discovery_timeout self)
                       (_ignore_cluster_errors self)]
    end).
  { destruct (_cluster_nodes_cache self) as [stored|] eqn:Hc.
    - rewrite (get_cluster_nodes_hit lib _ _ stored Hc) in H.
      injection H as <- <- <-. auto.
    - destruct (_servers self) as [|server0 rest] eqn:Hs.
      { revert H. unfold get_cluster_nodes; run. rewrite Hc, Hs.
        discriminate. }
      destruct (split ":" server0) as [|server [|port [|x xs]]] eqn:Hsplit.
      1,2,4: revert H; unfold get_cluster_nodes; run;
             rewrite Hc, Hs, Hsplit; discriminate.
      rewrite (get_cluster_nodes_miss lib _ _ _ _ _ _ Hc Hs Hsplit) in H.
      cbn zeta in H. exists server, port.
      destruct (get_cluster_info lib w server port _ _) as [info|err];
        [|discriminate].
      exists info. destruct (info !! "nodes") as [n|]; [|discriminate].
      injection H as <- <- <-. auto. }
  assert (Hstored : _cluster_nodes_cache self1 = Some nodes).
  { destruct (_cluster_nodes_cache self) as [stored|] eqn:Hc.
    - destruct Hcase as (-> & -> & _). assumption.
    - destruct Hcase as (? & ? & ? & _ & _ & -> & _). reflexivity. }
  repeat split.
  - intros w2. apply get_cluster_nodes_hit. assumption.
  - destruct (_cluster_nodes_cache self) as [stored|].
    + destruct Hcase as (_ & _ & ->). lia.
    + destruct Hcase as (? & ? & ? & _ & _ & _ & ->).
      unfold discoveries. rewrite count_app. cbn. lia.
  - assumption.
  - assumption.
Qed.

Lemma get_cluster_nodes_idempotent_witness :
  get_cluster_nodes Sample.lib Sample.cold []
  = (Return Sample.nodes1,
     set_cluster_nodes_cache (Some Sample.nodes1) Sample.cold,
     [EvDiscover "cfg.example.com" "11211" PyNone (PyBool false)]) /\
  (forall w2 : list Event,
     get_cluster_nodes Sample.lib
       (set_cluster_nodes_cache (Some Sample.nodes1) Sample.cold) w2
     = (Return Sample.nodes1,
        set_cluster_nodes_cache (Some Sample.nodes1) Sample.cold, w2)).
Proof.
  assert (H : get_cluster_nodes Sample.lib Sample.cold []
              = (Return Sample.nodes1,
                 set_cluster_nodes_cache (Some Sample.nodes1) Sample.cold,
                 [EvDiscover "cfg.example.com" "11211" PyNone (PyBool false)]))
    by (vm_compute; reflexivity).
  split; [exact H|].
  exact (proj1 (get_cluster_nodes_idempotent _ _ _ _ _ _ H)).
Defined.

(** ** Construction *)

(** An instance [__init__] returned has one endpoint, of two parts, and
    both caches empty: the state in which the discovery lemmas apply. *)
Lemma init_endpoint_well_formed (base : Base) (params : gmap string PyVal)
    (w w' : list Event) (self : ElastiCache) :
  __init__ base params w = (Return self, w') ->
  w' = w /\
  exists server0 server port,
    _servers self = [server0] /\
    split ":" server0 = [server; port] /\
    _cluster_nodes_cache self = None /\
    container_client self = None.
Proof.
  unfold __init__.
  destruct (decide _) as [|Hlen]; [discriminate|].
  destruct (base_servers base) as [|server0 rest] eqn:Hs; [discriminate|].
  destruct (decide _) as [|Hparts]; [discriminate|].
  intros [= <- <-]. split; [reflexivity|].
  destruct rest as [|x rest]; [|cbn in Hlen; lia].
  destruct (split ":" server0) as [|server [|port [|y ys]]] eqn:Hsplit;
    try (exfalso; apply Hparts; cbn; intros H; discriminate H).
  exists server0, server, port. cbn.
  destruct (base_local base); auto.
Qed.

(** C3. [__init__] raises [InvalidCacheBackendError] when the instance has
    more than one server, and when its first server does not split on [:]
    into exactly two parts; with exactly one server that does, it returns
    the instance.  In each case the trace is as it was: no collaborator has
    been called. *)
Theorem init_validates_endpoint (base : Base) (params : gmap string PyVal)
    (w : list Event) :
  (1 < length (base_servers base) ->
   exists msg,
     __init__ base params w = (Raise (mkExn InvalidCacheBackendError msg), w))
  /\
  (forall server0 rest,
     base_servers base = server0 :: rest ->
     length (split ":" server0) <> 2 ->
     exists msg,
       __init__ base params w
       = (Raise (mkExn InvalidCacheBackendError msg), w))
  /\
  (forall server0,
     base_servers base = [server0] ->
     length (split ":" server0) = 2 ->
     exists self,
       __init__ base params w = (Return self, w) /\
       _servers self = [server0] /\
       _cluster_nodes_cache self = None /\
       container_client self = None).
Proof.
  unfold __init__. repeat split.
  - intros Hlen. destruct (decide _); [eauto | contradiction].
  - intros server0 rest Hs Hbad. rewrite Hs.
    destruct (decide _); [eauto|].
    destruct (decide _); [eauto | contradiction].
  - intros server0 Hs Hok. rewrite Hs. cbn.
    destruct (decide (1 < 1)); [lia|].
    destruct (decide _); [contradiction|].
    eexists. split; [reflexivity|]. cbn.
    destruct (base_local base); auto.
Qed.

Lemma init_validates_endpoint_witness :
  (exists msg,
     __init__ (mkBase ["a.example.com:11211"; "b.example.com:11211"] ∅ false)
       ∅ []
     = (Raise (mkExn InvalidCacheBackendError msg), [])) /\
  (exists msg,
     __init__ (mkBase ["cfg.example.com"] ∅ false) ∅ []
     = (Raise (mkExn InvalidCacheBackendError msg), [])) /\
  (exists self, __init__ Sample.base Sample.params [] = (Return self, [])).
Proof.
  repeat split.
  - apply (proj1 (init_validates_endpoint
                    (mkBase ["a.example.com:11211"; "b.example.com:11211"]
                       ∅ false) ∅ [])).
    cbn. lia.
  - apply (proj1 (proj2 (init_validates_endpoint
                           (mkBase ["cfg.example.com"] ∅ false) ∅ []))
             "cfg.example.com" []); [reflexivity | cbn; lia].
  - destruct (proj2 (proj2 (init_validates_endpoint Sample.base Sample.params
                              [])) Sample.endpoint eq_refl eq_refl)
      as (self & H & _).
    exists self. exact H.
Defined.

(** ** The decorator *)

(** C4. When the base-class method behind a wrapped operation raises, the
    wrapped operation raises that very exception and its trace is the trace
    of that one run of the method: the base class has been entered exactly
    once. *)
Theorem wrapped_operation_reraises_once
    (base : OpName -> CallArgs -> M PyVal) (op : OpName) (args : CallArgs)
    (self : ElastiCache) (w : list Event) (e : PyExn) (self1 : ElastiCache)
    (d : list Event) :
  base op args self (w ++ [EvSuper op args])
  = (Raise e, self1, w ++ [EvSuper op args] ++ d) ->
  super_calls d = 0 ->
  exists self2,
    operation base op args self w
    = (Raise e, self2, w ++ [EvSuper op args] ++ d) /\
    super_calls (w ++ [EvSuper op args] ++ d) = S (super_calls w).
Proof.
  intros Hb Hd. rewrite operation_unfold.
  rewrite (invalidate_cache_after_error_raise _ _ _ e self1
             (w ++ [EvSuper op args] ++ d)).
  - eexists. split; [reflexivity|].
    unfold super_calls in *. rewrite !count_app, Hd. cbn. lia.
  - rewrite super_method_run. exact Hb.
Qed.

Lemma wrapped_operation_reraises_once_witness :
  exists self2,
    operation Sample.methods OpGet Sample.key_k Sample.warm Sample.warm_trace
    = (Raise Sample.pylibmc_error, self2,
       Sample.warm_trace ++ [EvSuper OpGet Sample.key_k]
         ++ [EvClientOp 0 OpGet Sample.key_k]) /\
    super_calls (Sample.warm_trace ++ [EvSuper OpGet Sample.key_k]
                   ++ [EvClientOp 0 OpGet Sample.key_k])
    = S (super_calls Sample.warm_trace).
Proof.
  apply (wrapped_operation_reraises_once Sample.methods OpGet Sample.key_k
           Sample.warm Sample.warm_trace Sample.pylibmc_error Sample.warm
           [EvClientOp 0 OpGet Sample.key_k]).
  - vm_compute. reflexivity.
  - reflexivity.
Defined.

(** ** Discovery failures *)

Lemma string_app_assoc (a b c : string) : (a +:+ b) +:+ c = a +:+ b +:+ c.
Proof.
  induction a as [|x a IH]; [reflexivity|].
  change (String x ((a +:+ b) +:+ c) = String x (a +:+ b +:+ c)).
  rewrite IH. reflexivity.
Qed.

Lemma cannot_connect_message (server0 : string) (err : PyExn) :
  contains (exn_str (cannot_connect server0 err)) server0 /\
  contains (exn_str (cannot_connect server0 err)) (exn_str err).
Proof.
  split.
  - exists "Cannot connect to cluster ", (" (" +:+ exn_str err +:+ ")").
    reflexivity.
  - exists ("Cannot connect to cluster " +:+ server0 +:+ " ("), ")".
    cbn [cannot_connect exn_str].
    rewrite !string_app_assoc. reflexivity.
Qed.

(** C5. On a cache miss, when [get_cluster_info] raises [socket.gaierror]
    or [socket.timeout], [get_cluster_nodes] raises a plain [Exception]
    whose message contains the configured endpoint string and the text of
    the original error; the instance is unchanged, its node-list cache still
    absent, and the next [get_cluster_nodes] calls the discovery helper
    again. *)
Theorem discovery_connectivity_error_wrapped (lib : Lib)
    (self : ElastiCache) (w : list Event) (server0 : string)
    (rest : list string) (server port : string) (err : PyExn) :
  _cluster_nodes_cache self = None ->
  _servers self = server0 :: rest ->
  split ":" server0 = [server; port] ->
  get_cluster_info lib w server port (_discovery_timeout self)
    (_ignore_cluster_errors self) = Raise err ->
  isinstance_gaierror_or_timeout err = true ->
  let call :=
    EvDiscover server port (_discovery_timeout self)
      (_ignore_cluster_errors self) in
  exists msg,
    get_cluster_nodes lib self w
    = (Raise (mkExn PlainException msg), self, w ++ [call]) /\
    contains msg server0 /\
    contains msg (exn_str err) /\
    _cluster_nodes_cache self = None /\
    forall (w2 : list Event) r self2 w3,
      get_cluster_nodes lib self w2 = (r, self2, w3) ->
      w3 = w2 ++ [call].
Proof.
  intros Hc Hs Hsplit Herr Hkind call.
  exists (exn_str (cannot_connect server0 err)).
  rewrite (get_cluster_nodes_miss lib _ _ _ _ _ _ Hc Hs Hsplit).
  cbn zeta. rewrite Herr, Hkind.
  split; [reflexivity|].
  split; [apply cannot_connect_message|].
  split; [apply cannot_connect_message|].
  split; [assumption|].
  intros w2 r self2 w3.
  rewrite (get_cluster_nodes_miss lib _ _ _ _ _ _ Hc Hs Hsplit).
  cbn zeta.
  destruct (get_cluster_info lib w2 server port _ _) as [info|err2].
  - destruct (info !! "nodes"); intros [= _ _ <-]; reflexivity.
  - intros [= _ _ <-]. reflexivity.
Qed.

Lemma discovery_connectivity_error_wrapped_witness :
  exists msg,
    get_cluster_nodes Sample.lib_unresolvable Sample.cold []
    = (Raise (mkExn PlainException msg), Sample.cold,
       [EvDiscover "cfg.example.com" "11211" PyNone (PyBool false)]) /\
    contains msg Sample.endpoint /\
    contains msg (exn_str Sample.gai).
Proof.
  destruct (discovery_connectivity_error_wrapped Sample.lib_unresolvable
              Sample.cold [] Sample.endpoint [] "cfg.example.com" "11211"
              Sample.gai eq_refl eq_refl eq_refl eq_refl eq_refl)
    as (msg & H1 & H2 & H3 & _).
  exists msg. auto.
Defined.

(** C10. On a cache miss, an exception raised by [get_cluster_info] is
    replaced exactly when its class is [socket.gaierror] or
    [socket.timeout]: the caller then gets a new exception, of class
    [Exception], whose message is "Cannot connect to cluster", the
    configured endpoint and the text of the original error in brackets, and
    which is not the original one.  An exception of any other class reaches
    the caller as the very exception that was raised, as does the [KeyError]
    of an answer without a ['nodes'] entry.  In every one of these cases the
    node-list cache stays unset. *)
Theorem only_connectivity_errors_wrapped (lib : Lib) (self : ElastiCache)
    (w : list Event) (server0 : string) (rest : list string)
    (server port : string) :
  _cluster_nodes_cache self = None ->
  _servers self = server0 :: rest ->
  split ":" server0 = [server; port] ->
  let call :=
    EvDiscover server port (_discovery_timeout self)
      (_ignore_cluster_errors self) in
  let answer :=
    get_cluster_info lib w server port (_discovery_timeout self)
      (_ignore_cluster_errors self) in
  (forall err,
     answer = Raise err ->
     exn_class err <> socket_gaierror ->
     exn_class err <> socket_timeout ->
     get_cluster_nodes lib self w = (Raise err, self, w ++ [call])) /\
  (forall err,
     answer = Raise err ->
     exn_class err = socket_gaierror \/ exn_class err = socket_timeout ->
     exists raised,
       get_cluster_nodes lib self w = (Raise raised, self, w ++ [call]) /\
       exn_class raised = PlainException /\
       exn_str raised
       = "Cannot connect to cluster " +:+ server0 +:+ " ("
           +:+ exn_str err +:+ ")" /\
       raised <> err) /\
  (forall info,
     answer = Return info ->
     info !! "nodes" = None ->
     get_cluster_nodes lib self w
     = (Raise (mkExn KeyError "'nodes'"), self, w ++ [call])) /\
  (forall e self1 w1,
     get_cluster_nodes lib self w = (Raise e, self1, w1) ->
     _cluster_nodes_cache self1 = None).
Proof.
  intros Hc Hs Hsplit call answer. subst call answer.
  pose proof (get_cluster_nodes_miss lib _ w _ _ _ _ Hc Hs Hsplit) as Hrun.
  cbn zeta in Hrun. repeat split.
  - intros err Herr Hgai Htimeout. rewrite Hrun, Herr.
    assert (Hkind : isinstance_gaierror_or_timeout err = false).
    { unfold isinstance_gaierror_or_timeout.
      destruct (exn_class err); try reflexivity; contradiction. }
    rewrite Hkind. reflexivity.
  - intros err Herr Hclass. rewrite Hrun, Herr.
    assert (Hkind : isinstance_gaierror_or_timeout err = true).
    { unfold isinstance_gaierror_or_timeout.
      destruct Hclass as [-> | ->]; reflexivity. }
    rewrite Hkind. exists (cannot_connect server0 err).
    split; [reflexivity|]. split; [reflexivity|]. split; [reflexivity|].
    intros Heq. rewrite <- Heq in Hclass. cbn in Hclass.
    destruct Hclass as [H|H]; discriminate H.
  - intros info Hinfo Hnodes. rewrite Hrun, Hinfo, Hnodes. reflexivity.
  - intros e self1 w1. rewrite Hrun.
    destruct (get_cluster_info lib w server port _ _) as [info|err].
    + destruct (info !! "nodes"); [discriminate|].
      intros [= _ <- _]. assumption.
    + intros [= _ <- _]. assumption.
Qed.

Lemma only_connectivity_errors_wrapped_witness :
  get_cluster_nodes Sample.lib_refused Sample.cold []
  = (Raise Sample.refused, Sample.cold,
     [EvDiscover "cfg.example.com" "11211" PyNone (PyBool false)]) /\
  (exists raised,
     get_cluster_nodes Sample.lib_unresolvable Sample.cold []
     = (Raise raised, Sample.cold,
        [EvDiscover "cfg.example.com" "11211" PyNone (PyBool false)]) /\
     exn_class raised = PlainException /\
     exn_str raised
     = "Cannot connect to cluster cfg.example.com:11211 ([Errno -2] Name or service not known)"
     /\ raised <> Sample.gai) /\
  (exists raised,
     get_cluster_nodes Faulty.lib_timeout Sample.cold []
     = (Raise raised, Sample.cold,
        [EvDiscover "cfg.example.com" "11211" PyNone (PyBool false)]) /\
     exn_class raised = PlainException /\
     exn_str raised
     = "Cannot connect to cluster cfg.example.com:11211 (timed out)" /\
     raised <> Faulty.timed_out).
Proof.
  split; [|split].
  - refine (proj1 (only_connectivity_errors_wrapped Sample.lib_refused
                     Sample.cold [] Sample.endpoint [] "cfg.example.com"
                     "11211" eq_refl eq_refl eq_refl)
              Sample.refused eq_refl _ _); cbn; discriminate.
  - exact (proj1 (proj2 (only_connectivity_errors_wrapped
                           Sample.lib_unresolvable Sample.cold []
                           Sample.endpoint [] "cfg.example.com" "11211"
                           eq_refl eq_refl eq_refl))
             Sample.gai eq_refl (or_introl eq_refl)).
  - exact (proj1 (proj2 (only_connectivity_errors_wrapped
                           Faulty.lib_timeout Sample.cold []
                           Sample.endpoint [] "cfg.example.com" "11211"
                           eq_refl eq_refl eq_refl))
             Faulty.timed_out eq_refl (or_intror eq_refl)).
Defined.

(** ** Discovery parameters *)



(** ** The [_cache] property *)

(** C6. [_cache] returns the cached handle when there is one, calling
    nothing.  When there is none and the node list is obtained, it builds
    one handle against that list with a single call to pylibmc's [Client],
    assigns the configured behaviors to it once (the options are non-empty)
    or not at all (no option is configured), stores it on the container and
    returns it; the next access returns that handle and calls nothing, so
    both accesses together cost one construction. *)
Theorem cache_property_returns_cached_or_builds (lib : Lib)
    (self : ElastiCache) (w : list Event) :
  (forall c,
     container_client self = Some c ->
     _cache lib self w = (Return c, self, w)) /\
  (container_client self = None ->
   forall nodes self1 w1,
     get_cluster_nodes lib self w = (Return nodes, self1, w1) ->
     Client_error lib w1 nodes = None ->
     (forall b,
        configured_behaviors self = Some b ->
        behaviors_error lib (w1 ++ [EvClient nodes])
          (mkClient (constructions w1) nodes None) b = None) ->
     let c := built_client self w1 nodes in
     let self2 := set_container_client c self1 in
     let w2 := w1 ++ build_calls self w1 nodes in
     _cache lib self w = (Return c, self2, w2) /\
     client_servers c = nodes /\
     client_behaviors c = configured_behaviors self /\
     container_client self2 = Some c /\
     constructions w2 = S (constructions w) /\
     behaviors_applied w2
     = behaviors_applied w + (if dict_truthy (_options self) then 1 else 0) /\
     _cache lib self2 w2 = (Return c, self2, w2)).
Proof.
  split; [intros c; apply _cache_hit|].
  intros Hnone nodes self1 w1 Hn Hc Hb c self2 w2.
  assert (Hrun : _cache lib self w = (Return c, self2, w2)).
  { rewrite (_cache_miss lib _ _ Hnone).
    apply new_client_run; assumption. }
  pose proof Hrun as Hcount.
  rewrite (_cache_miss lib _ _ Hnone) in Hcount.
  apply new_client_counts in Hcount.
  destruct Hcount as (Hk & _ & Hbeh & Hstored).
  repeat split; try assumption; try reflexivity.
  apply _cache_hit. assumption.
Qed.

Lemma cache_property_returns_cached_or_builds_witness :
  _cache Sample.lib Sample.cold []
  = (Return Sample.client0, Sample.warm,
     [EvDiscover "cfg.example.com" "11211" PyNone (PyBool false);
      EvClient Sample.nodes1;
      EvBehaviors 0 (PyDict Sample.behaviors)]) /\
  _cache Sample.lib Sample.warm Sample.warm_trace
  = (Return Sample.client0, Sample.warm, Sample.warm_trace).
Proof.
  split.
  - assert (Hn : get_cluster_nodes Sample.lib Sample.cold []
                 = (Return Sample.nodes1,
                    set_cluster_nodes_cache (Some Sample.nodes1) Sample.cold,
                    [EvDiscover "cfg.example.com" "11211" PyNone
                       (PyBool false)]))
      by (vm_compute; reflexivity).
    destruct (proj2 (cache_property_returns_cached_or_builds Sample.lib
                       Sample.cold []) eq_refl _ _ _ Hn eq_refl
                (fun _ _ => eq_refl)) as (H & _).
    rewrite H. vm_compute. reflexivity.
  - exact (proj1 (cache_property_returns_cached_or_builds Sample.lib
                    Sample.warm Sample.warm_trace) Sample.client0 eq_refl).
Defined.

(** ** What an error invalidates *)

(** A handle cached when an access starts is handed back with no discovery
    and no construction; with neither handle nor node list cached, an access
    that returns has made exactly one discovery call and one construction. *)
Lemma cache_property_access_cost (lib : Lib) (self : ElastiCache)
    (w : list Event) :
  _cluster_nodes_cache self = None ->
  match container_client self with
  | Some c => _cache lib self w = (Return c, self, w)
  | None =>
      forall c self1 w1,
        _cache lib self w = (Return c, self1, w1) ->
        discoveries w1 = S (discoveries w) /\
        constructions w1 = S (constructions w)
  end.
Proof.
  intros Hnodes. destruct (container_client self) as [c|] eqn:Hc.
  - apply _cache_hit. assumption.
  - intros c self1 w1. rewrite (_cache_miss lib _ _ Hc). intros Hrun.
    apply new_client_counts in Hrun. rewrite Hnodes in Hrun. cbn in Hrun.
    destruct Hrun as (Hk & Hd & _). split; lia.
Qed.

(** C1, as the code has it.  When the base-class method behind a wrapped
    operation raises an exception that [except Exception] catches, the
    wrapped operation raises it with the node-list cache empty and the
    client-handle cache exactly as the method left it.  The next [_cache]
    access hands back a handle that is still cached, with no discovery and
    no construction; only when no handle is cached does it make exactly one
    discovery call and one construction before it returns. *)
Theorem wrapped_operation_error_clears_node_list
    (base : OpName -> CallArgs -> M PyVal) (op : OpName) (args : CallArgs)
    (self : ElastiCache) (w : list Event) (e : PyExn) (self1 : ElastiCache)
    (w1 : list Event) :
  super_method base op args self w = (Raise e, self1, w1) ->
  isinstance_Exception e = true ->
  exists self2,
    operation base op args self w = (Raise e, self2, w1) /\
    _cluster_nodes_cache self2 = None /\
    container_client self2 = container_client self1 /\
    forall (lib : Lib) (w2 : list Event),
      match container_client self1 with
      | Some c => _cache lib self2 w2 = (Return c, self2, w2)
      | None =>
          forall c self3 w3,
            _cache lib self2 w2 = (Return c, self3, w3) ->
            discoveries w3 = S (discoveries w2) /\
            constructions w3 = S (constructions w2)
      end.
Proof.
  intros Hf He. exists (set_cluster_nodes_cache None self1).
  rewrite operation_unfold.
  rewrite (invalidate_cache_after_error_raise _ _ _ _ _ _ Hf), He.
  repeat split.
  intros lib w2.
  pose proof (cache_property_access_cost lib
                (set_cluster_nodes_cache None self1) w2 eq_refl) as H.
  rewrite container_client_set_nodes in H. exact H.
Qed.

Lemma wrapped_operation_error_clears_node_list_witness :
  exists self2,
    operation Sample.methods OpGet Sample.key_k Sample.warm Sample.warm_trace
    = (Raise Sample.pylibmc_error, self2,
       Sample.warm_trace
         ++ [EvSuper OpGet Sample.key_k; EvClientOp 0 OpGet Sample.key_k]) /\
    _cluster_nodes_cache self2 = None /\
    container_client self2 = Some Sample.client0.
Proof.
  destruct (wrapped_operation_error_clears_node_list Sample.methods OpGet
              Sample.key_k Sample.warm Sample.warm_trace Sample.pylibmc_error
              Sample.warm
              (Sample.warm_trace
                 ++ [EvSuper OpGet Sample.key_k;
                     EvClientOp 0 OpGet Sample.key_k]))
    as (self2 & H1 & H2 & H3 & _).
  - vm_compute. reflexivity.
  - reflexivity.
  - exists self2. auto.
Defined.

(** The failed [get] on the warm sample instance, run. *)
Example failed_get_on_warm :
  get Sample.methods Sample.key_k Sample.warm Sample.warm_trace
  = (Raise Sample.pylibmc_error, Sample.after_error,
     Sample.warm_trace
       ++ [EvSuper OpGet Sample.key_k; EvClientOp 0 OpGet Sample.key_k]).
Proof. vm_compute. reflexivity. Qed.

(** The [set] that follows it goes to the handle built before the error:
    the trace gains the call to the handle and nothing else. *)
Example set_after_failed_get :
  set Sample.methods Sample.set_k_v Sample.after_error
    (Sample.warm_trace
       ++ [EvSuper OpGet Sample.key_k; EvClientOp 0 OpGet Sample.key_k])
  = (Return (PyBool true), Sample.after_error,
     Sample.warm_trace
       ++ [EvSuper OpGet Sample.key_k; EvClientOp 0 OpGet Sample.key_k;
           EvSuper OpSet Sample.set_k_v; EvClientOp 0 OpSet Sample.set_k_v]).
Proof. vm_compute. reflexivity. Qed.

(** An interrupted [delete] is not an [Exception]: the decorator lets it
    pass and the node list stays cached. *)
Example interrupted_delete_on_warm :
  delete Sample.methods Sample.key_k Sample.warm Sample.warm_trace
  = (Raise Sample.interrupted, Sample.warm,
     Sample.warm_trace
       ++ [EvSuper OpDelete Sample.key_k; EvClientOp 0 OpDelete Sample.key_k]).
Proof. vm_compute. reflexivity. Qed.

(** C1, as stated, fails on the warm sample instance.  After the failed
    [get] the client handle is still cached, and the [set] that follows makes
    no discovery call and no construction; after the interrupted [delete]
    neither cache is empty. *)
Lemma joint_invalidation_counterexample :
  ~ (forall op e self1 w1,
       operation Sample.methods op Sample.key_k Sample.warm Sample.warm_trace
       = (Raise e, self1, w1) ->
       (_cluster_nodes_cache self1 = None /\ container_client self1 = None) /\
       forall r self2 w2,
         set Sample.methods Sample.set_k_v self1 w1 = (r, self2, w2) ->
         discoveries w2 = S (discoveries w1) /\
         constructions w2 = S (constructions w1)) /\
  (exists self1 w1,
     get Sample.methods Sample.key_k Sample.warm Sample.warm_trace
     = (Raise Sample.pylibmc_error, self1, w1) /\
     container_client self1 = Some Sample.client0 /\
     exists self2 w2,
       set Sample.methods Sample.set_k_v self1 w1
       = (Return (PyBool true), self2, w2) /\
       discoveries w2 = discoveries w1 /\
       constructions w2 = constructions w1) /\
  (exists self1 w1,
     delete Sample.methods Sample.key_k Sample.warm Sample.warm_trace
     = (Raise Sample.interrupted, self1, w1) /\
     _cluster_nodes_cache self1 = Some Sample.nodes1 /\
     container_client self1 = Some Sample.client0).
Proof.
  split; [|split].
  - intros H.
    destruct (H OpGet _ _ _ failed_get_on_warm) as ((_ & Hclient) & _).
    discriminate Hclient.
  - eexists _, _. split; [exact failed_get_on_warm|].
    split; [reflexivity|].
    eexists _, _. split; [exact set_after_failed_get|].
    split; reflexivity.
  - eexists _, _. split; [exact interrupted_delete_on_warm|].
    split; reflexivity.
Qed.


(** * Further properties *)

(** ** Endpoints and [split] *)

Lemma split_not_nil (sep : ascii) (s : string) : split sep s <> [].
Proof.
  destruct s as [|c rest]; cbn; [discriminate|].
  destruct (Ascii.eqb c sep); [discriminate|].
  destruct (split sep rest); discriminate.
Qed.

Lemma split_length (sep : ascii) (s : string) :
  length (split sep s) = S (occurrences sep s).
Proof.
  induction s as [|c rest IH]; [reflexivity|]. cbn [split occurrences].
  destruct (Ascii.eqb c sep).
  - cbn. rewrite IH. reflexivity.
  - destruct (split sep rest) as [|piece pieces] eqn:Hs.
    + exfalso. exact (split_not_nil _ _ Hs).
    + cbn in *. lia.
Qed.

Lemma join_cons_char (sep c : ascii) (piece : string) (pieces : list string) :
  join sep (String c piece :: pieces) = String c (join sep (piece :: pieces)).
Proof. destruct pieces; reflexivity. Qed.

Lemma join_split (sep : ascii) (s : string) : join sep (split sep s) = s.
Proof.
  induction s as [|c rest IH]; [reflexivity|]. cbn [split].
  destruct (Ascii.eqb_spec c sep) as [->|Hne].
  - destruct (split sep rest) as [|piece pieces] eqn:Hs.
    + exfalso. exact (split_not_nil _ _ Hs).
    + change (String sep (join sep (piece :: pieces)) = String sep rest).
      rewrite IH. reflexivity.
  - destruct (split sep rest) as [|piece pieces] eqn:Hs.
    + exfalso. exact (split_not_nil _ _ Hs).
    + rewrite join_cons_char, IH. reflexivity.
Qed.

Lemma split_pieces_clean (sep : ascii) (s : string) :
  Forall (fun piece => occurrences sep piece = 0) (split sep s).
Proof.
  induction s as [|c rest IH]; [repeat constructor|]. cbn [split].
  destruct (Ascii.eqb c sep) eqn:Hc.
  - constructor; [reflexivity | exact IH].
  - destruct (split sep rest) as [|piece pieces]; [repeat constructor; cbn; rewrite Hc; reflexivity|].
    inversion IH as [|? ? Hp Hps]; subst.
    constructor; [|exact Hps]. cbn. rewrite Hc, Hp. reflexivity.
Qed.

(** The two halves of an endpoint that [split] cuts in two. *)
Lemma split_two (s server port : string) :
  split ":" s = [server; port] ->
  s = server +:+ ":" +:+ port /\
  occurrences ":" server = 0 /\ occurrences ":" port = 0.
Proof.
  intros Hs. split.
  - rewrite <- (join_split ":" s) at 1. rewrite Hs. reflexivity.
  - pose proof (split_pieces_clean ":" s) as Hclean. rewrite Hs in Hclean.
    inversion Hclean as [|? ? H1 Hrest]; subst.
    inversion Hrest as [|? ? H2 _]; subst. auto.
Qed.

(** X2. With a single server, [__init__] returns an instance exactly when
    the server string has one colon in it; the string is then a colon-free
    host, the colon and a colon-free port (either may be empty), and neither
    the options nor [params] matter to the verdict.  An address with more
    colons, such as a bracketed IPv6 literal with its port, is refused. *)
Theorem init_accepts_exactly_one_colon (server0 : string)
    (options params : gmap string PyVal) (local : bool) (w : list Event) :
  ((exists self,
      __init__ (mkBase [server0] options local) params w = (Return self, w))
   <-> occurrences ":" server0 = 1) /\
  (forall r w',
     __init__ (mkBase [server0] options local) params w = (r, w') ->
     match r with
     | Return self =>
         exists server port,
           server0 = server +:+ ":" +:+ port /\
           occurrences ":" server = 0 /\ occurrences ":" port = 0 /\
           split ":" server0 = [server; port] /\
           _servers self = [server0]
     | Raise e =>
         exn_class e = InvalidCacheBackendError /\
         occurrences ":" server0 <> 1
     end).
Proof.
  pose proof (split_length ":" server0) as Hlen.
  unfold __init__. cbn [base_servers length].
  destruct (decide (1 < 1)) as [Habs|_]; [lia|].
  destruct (decide (length (split ":" server0) ≠ 2)) as [Hbad|Hok].
  - split.
    + split; [intros (self & H); discriminate H | intros H1; exfalso; lia].
    + intros r w' [= <- <-]. cbn. split; [reflexivity | lia].
  - split.
    + split; [intros _; lia | intros _; eauto].
    + intros r w' [= <- <-].
      destruct (split ":" server0) as [|server [|port [|x xs]]] eqn:Hs;
        try (exfalso; apply Hok; cbn; intros H; discriminate H).
      destruct (split_two _ _ _ Hs) as (H1 & H2 & H3).
      exists server, port. cbn. auto.
Qed.

Lemma init_accepts_exactly_one_colon_witness :
  (exists self,
     __init__ (mkBase ["cfg.example.com:"] ∅ false) ∅ [] = (Return self, []))
  /\ occurrences ":" "[2001:db8::1]:11211" <> 1.
Proof.
  split.
  - apply (proj1 (init_accepts_exactly_one_colon "cfg.example.com:" ∅ ∅ false
                    [])).
    reflexivity.
  - destruct (proj2 (init_accepts_exactly_one_colon "[2001:db8::1]:11211" ∅ ∅
                       false [])
                (fst (__init__ (mkBase ["[2001:db8::1]:11211"] ∅ false) ∅ []))
                [] ltac:(vm_compute; reflexivity)) as (_ & H).
    exact H.
Defined.

(** X4. What [__init__] does is decided by the server list alone, and it
    never touches the trace.  No server: an [IndexError] from
    [self._servers[0]], not the [InvalidCacheBackendError] of the two
    guards.  Two servers or more: the "only one server" error, whatever the
    servers look like.  One server: the instance when the string has exactly
    one colon, the "format IP:port" error otherwise. *)
Theorem init_outcome_by_servers (base : Base) (params : gmap string PyVal)
    (w : list Event) :
  exists r,
    __init__ base params w = (r, w) /\
    match base_servers base with
    | [] => r = Raise (mkExn IndexError "list index out of range")
    | [server0] =>
        if decide (occurrences ":" server0 = 1) then
          exists self, r = Return self /\ _servers self = [server0]
        else
          r = Raise (mkExn InvalidCacheBackendError
                       "Server configuration should be in format IP:port")
    | _ :: _ :: _ =>
        r = Raise (mkExn InvalidCacheBackendError
                     ("ElastiCache should be configured with only one server "
                      +:+ "(Configuration Endpoint)"))
    end.
Proof.
  unfold __init__.
  destruct (base_servers base) as [|server0 [|server1 rest]] eqn:Hs.
  - cbn. destruct (decide (1 < 0)); [lia|]. eauto.
  - cbn [length]. destruct (decide (1 < 1)); [lia|].
    pose proof (split_length ":" server0) as Hlen.
    destruct (decide (length (split ":" server0) ≠ 2)) as [Hbad|Hok];
      destruct (decide (occurrences ":" server0 = 1)) as [H1|H1];
      try (exfalso; lia); eauto.
  - cbn [length]. destruct (decide _) as [|Hn]; [eauto | exfalso; lia].
Qed.

(** ** Discovery on a constructed instance *)

(** X3. On an instance that [__init__] returned, in any later state whose
    node-list cache is empty, [get_cluster_nodes] never fails on the
    endpoint itself: it makes one call to [get_cluster_info] with the host
    part and the port part of the configured endpoint, the port still a
    string, and its outcome is decided by the answer alone. *)
Theorem constructed_instance_discovers_endpoint (base : Base)
    (params : gmap string PyVal) (w0 w0' : list Event) (self : ElastiCache)
    (lib : Lib) (obj : ElastiCache) (w : list Event) :
  __init__ base params w0 = (Return self, w0') ->
  _servers obj = _servers self ->
  _cluster_nodes_cache obj = None ->
  exists server port,
    base_servers base = [server +:+ ":" +:+ port] /\
    occurrences ":" server = 0 /\ occurrences ":" port = 0 /\
    get_cluster_nodes lib obj w
    = let call :=
        EvDiscover server port (_discovery_timeout obj)
          (_ignore_cluster_errors obj) in
      match get_cluster_info lib w server port (_discovery_timeout obj)
              (_ignore_cluster_errors obj) with
      | Return info =>
          match info !! "nodes" with
          | Some nodes =>
              (Return nodes, set_cluster_nodes_cache (Some nodes) obj,
               w ++ [call])
          | None => (Raise (mkExn KeyError "'nodes'"), obj, w ++ [call])
          end
      | Raise err =>
          (Raise (if isinstance_gaierror_or_timeout err
                  then cannot_connect (server +:+ ":" +:+ port) err
                  else err),
           obj, w ++ [call])
      end.
Proof.
  intros Hinit Hservers Hcache.
  assert (Hbase : _servers self = base_servers base).
  { revert Hinit. unfold __init__.
    destruct (decide _); [discriminate|].
    destruct (base_servers base); [discriminate|].
    destruct (decide _); [discriminate|].
    intros [= <- _]. reflexivity. }
  destruct (init_endpoint_well_formed _ _ _ _ _ Hinit)
    as (_ & server0 & server & port & Hs & Hsplit & _ & _).
  destruct (split_two _ _ _ Hsplit) as (Heq & H1 & H2).
  exists server, port. rewrite <- Heq, <- Hbase.
  repeat split; try assumption.
  rewrite Hs in Hservers.
  exact (get_cluster_nodes_miss lib obj w server0 [] server port Hcache
           Hservers Hsplit).
Qed.

Lemma constructed_instance_discovers_endpoint_witness :
  exists server port,
    base_servers Sample.base = [server +:+ ":" +:+ port] /\
    exists r self1,
      get_cluster_nodes Sample.lib_refused Sample.cold []
      = (r, self1,
         [EvDiscover server port PyNone (PyBool false)]).
Proof.
  destruct (constructed_instance_discovers_endpoint Sample.base Sample.params
              [] [] Sample.cold Sample.lib_refused Sample.cold []
              ltac:(vm_compute; reflexivity) eq_refl eq_refl)
    as (server & port & Hb & _ & _ & Hrun).
  exists server, port. split; [exact Hb|].
  rewrite Hrun. cbn. eauto.
Defined.

Lemma get_cluster_nodes_return_cached (lib : Lib) (self : ElastiCache)
    (w : list Event) (nodes : PyVal) (self1 : ElastiCache)
    (w1 : list Event) :
  get_cluster_nodes lib self w = (Return nodes, self1, w1) ->
  _cluster_nodes_cache self1 = Some nodes.
Proof.
  intros H. destruct (_cluster_nodes_cache self) as [stored|] eqn:Hc.
  - rewrite (get_cluster_nodes_hit lib _ _ stored Hc) in H.
    injection H as <- <- <-. assumption.
  - destruct (_servers self) as [|server0 rest] eqn:Hs.
    { revert H. unfold get_cluster_nodes; run. rewrite Hc, Hs.
      discriminate. }
    destruct (split ":" server0) as [|server [|port [|x xs]]] eqn:Hsplit.
    1,2,4: revert H; unfold get_cluster_nodes; run;
           rewrite Hc, Hs, Hsplit; discriminate.
    rewrite (get_cluster_nodes_miss lib _ _ _ _ _ _ Hc Hs Hsplit) in H.
    cbn zeta in H.
    destruct (get_cluster_info lib w server port _ _) as [info|err];
      [|discriminate].
    destruct (info !! "nodes") as [n|]; [|discriminate].
    injection H as <- <- <-. reflexivity.
Qed.

(** X11. [get_cluster_nodes] changes nothing of the instance but the
    node-list cache, never calls pylibmc nor the base class, and when it
    raises, for whatever reason, the instance is exactly as it was. *)
Theorem get_cluster_nodes_frame (lib : Lib) (self : ElastiCache)
    (w : list Event) (r : Outcome PyVal) (self1 : ElastiCache)
    (w1 : list Event) :
  get_cluster_nodes lib self w = (r, self1, w1) ->
  self1 = set_cluster_nodes_cache (_cluster_nodes_cache self1) self /\
  constructions w1 = constructions w /\
  behaviors_applied w1 = behaviors_applied w /\
  super_calls w1 = super_calls w /\
  match r with
  | Raise _ => self1 = self /\ _cluster_nodes_cache self = None
  | Return nodes => _cluster_nodes_cache self1 = Some nodes
  end.
Proof.
  intros Hrun. pose proof Hrun as Htrace.
  apply get_cluster_nodes_trace in Htrace.
  assert (Hcounts : constructions w1 = constructions w /\
                    behaviors_applied w1 = behaviors_applied w /\
                    super_calls w1 = super_calls w).
  { destruct Htrace as [(-> & _)|(server & port & _ & -> & _)]; [auto|].
    unfold constructions, behaviors_applied, super_calls.
    rewrite !count_app. cbn. repeat split; lia. }
  destruct Hcounts as (Hk & Hb & Hsup).
  assert (Hstate :
    self1 = set_cluster_nodes_cache (_cluster_nodes_cache self1) self).
  { destruct Htrace as [(_ & -> & _)|(? & ? & _ & _ & [->|(n & _ & ->)])];
      try (symmetry; apply set_cluster_nodes_cache_id).
    reflexivity. }
  repeat split; try assumption.
  destruct r as [nodes|e].
  - exact (get_cluster_nodes_return_cached _ _ _ _ _ _ Hrun).
  - destruct (_cluster_nodes_cache self) as [stored|] eqn:Hc.
    + rewrite (get_cluster_nodes_hit lib _ _ stored Hc) in Hrun.
      discriminate Hrun.
    + split; [|reflexivity].
      destruct Htrace as [(_ & -> & _)|(? & ? & _ & _ & [->|(n & Hr & _)])];
        [reflexivity | reflexivity | discriminate Hr].
Qed.

Lemma get_cluster_nodes_frame_witness :
  get_cluster_nodes Sample.lib_refused Sample.cold []
  = (Raise Sample.refused, Sample.cold, [Faulty.discovery_call]) /\
  constructions [Faulty.discovery_call] = constructions [].
Proof.
  assert (Hrun :
    get_cluster_nodes Sample.lib_refused Sample.cold []
    = (Raise Sample.refused, Sample.cold, [Faulty.discovery_call]))
    by (vm_compute; reflexivity).
  split; [exact Hrun|].
  exact (proj1 (proj2 (get_cluster_nodes_frame _ _ _ _ _ _ Hrun))).
Defined.

(** X10. Clearing and then asking for the nodes always goes back to the
    configuration endpoint: whatever list was cached before, the pair of
    calls makes exactly one discovery call, and when the answer has a
    ['nodes'] entry that entry is returned and becomes the cached list. *)
Theorem clear_then_get_cluster_nodes_rediscovers (lib : Lib)
    (self : ElastiCache) (w : list Event) (server0 : string)
    (rest : list string) (server port : string) :
  _servers self = server0 :: rest ->
  split ":" server0 = [server; port] ->
  let call :=
    EvDiscover server port (_discovery_timeout self)
      (_ignore_cluster_errors self) in
  exists r self1,
    (clear_cluster_nodes_cache;; get_cluster_nodes lib) self w
    = (r, self1, w ++ [call]) /\
    discoveries (w ++ [call]) = S (discoveries w) /\
    forall info nodes,
      get_cluster_info lib w server port (_discovery_timeout self)
        (_ignore_cluster_errors self) = Return info ->
      info !! "nodes" = Some nodes ->
      r = Return nodes /\
      self1 = set_cluster_nodes_cache (Some nodes) self.
Proof.
  intros Hs Hsplit call. subst call.
  cbv [mbind M_bind]. rewrite clear_cluster_nodes_cache_run.
  rewrite (get_cluster_nodes_miss lib (set_cluster_nodes_cache None self) w
             server0 rest server port eq_refl Hs Hsplit).
  cbn.
  assert (Hcount :
    discoveries (w ++ [EvDiscover server port (_discovery_timeout self)
                         (_ignore_cluster_errors self)])
    = S (discoveries w)).
  { unfold discoveries. rewrite count_app. cbn. lia. }
  destruct (get_cluster_info lib w server port _ _) as [info|err].
  - destruct (info !! "nodes") as [n|] eqn:Hn.
    + eexists _, _. split; [reflexivity|]. split; [exact Hcount|].
      intros info' nodes [= <-] Hn'. rewrite Hn in Hn'.
      injection Hn' as <-. split; reflexivity.
    + eexists _, _. split; [reflexivity|]. split; [exact Hcount|].
      intros info' nodes [= <-] Hn'. rewrite Hn in Hn'. discriminate Hn'.
  - eexists _, _. split; [reflexivity|]. split; [exact Hcount|].
    intros info' nodes Hi. discriminate Hi.
Qed.

Lemma clear_then_get_cluster_nodes_rediscovers_witness :
  exists r self1,
    (clear_cluster_nodes_cache;; get_cluster_nodes Sample.lib) Sample.warm
      Sample.warm_trace
    = (r, self1, Sample.warm_trace ++ [Faulty.discovery_call]) /\
    r = Return Sample.nodes2.
Proof.
  destruct (clear_then_get_cluster_nodes_rediscovers Sample.lib Sample.warm
              Sample.warm_trace Sample.endpoint [] "cfg.example.com" "11211"
              eq_refl eq_refl) as (r & self1 & Hrun & _ & Hans).
  exists r, self1. split; [exact Hrun|].
  assert (Hinfo :
    get_cluster_info Sample.lib Sample.warm_trace "cfg.example.com" "11211"
      (_discovery_timeout Sample.warm) (_ignore_cluster_errors Sample.warm)
    = Return {[ "nodes" := Sample.nodes2 ]}) by (vm_compute; reflexivity).
  assert (Hnodes :
    ({[ "nodes" := Sample.nodes2 ]} : gmap string PyVal) !! "nodes"
    = Some Sample.nodes2) by (vm_compute; reflexivity).
  exact (proj1 (Hans _ _ Hinfo Hnodes)).
Defined.

(** ** The decorator on every outcome *)

(** X1. The decorator never changes what the decorated function returns or
    raises, nor the calls it made.  Of the instance it changes at most the
    node-list cache, and only when the function raised an instance of
    [Exception]: a normal return and an exception outside [Exception] leave
    the instance exactly as the function left it. *)
Theorem decorator_frame {A : Type} (f : M A) (self : ElastiCache)
    (w : list Event) (r : Outcome A) (self1 : ElastiCache)
    (w1 : list Event) :
  f self w = (r, self1, w1) ->
  exists self2,
    invalidate_cache_after_error f self w = (r, self2, w1) /\
    container_client self2 = container_client self1 /\
    self2 = set_cluster_nodes_cache (_cluster_nodes_cache self2) self1 /\
    match r with
    | Return _ => self2 = self1
    | Raise e =>
        if isinstance_Exception e then _cluster_nodes_cache self2 = None
        else self2 = self1
    end.
Proof.
  intros Hf. destruct r as [a|e].
  - exists self1.
    rewrite (invalidate_cache_after_error_return f _ _ _ _ _ Hf).
    repeat split. symmetry. apply set_cluster_nodes_cache_id.
  - rewrite (invalidate_cache_after_error_raise f _ _ _ _ _ Hf).
    destruct (isinstance_Exception e).
    + exists (set_cluster_nodes_cache None self1). repeat split.
    + exists self1. repeat split. symmetry. apply set_cluster_nodes_cache_id.
Qed.

Lemma decorator_frame_witness :
  exists self2,
    invalidate_cache_after_error
      (super_method Sample.methods OpDelete Sample.key_k) Sample.warm
      Sample.warm_trace
    = (Raise Sample.interrupted, self2,
       Sample.warm_trace
         ++ [EvSuper OpDelete Sample.key_k;
             EvClientOp 0 OpDelete Sample.key_k]) /\
    self2 = Sample.warm.
Proof.
  destruct (decorator_frame
              (super_method Sample.methods OpDelete Sample.key_k) Sample.warm
              Sample.warm_trace (Raise Sample.interrupted) Sample.warm
              (Sample.warm_trace
                 ++ [EvSuper OpDelete Sample.key_k;
                     EvClientOp 0 OpDelete Sample.key_k])
              ltac:(vm_compute; reflexivity)) as (self2 & H1 & _ & _ & H2).
  exists self2. split; [exact H1 | exact H2].
Defined.

(** ** The [_cache] property on every path *)

(** Lines 86 to 95, spelt out by what the collaborators answer. *)
Lemma new_client_unfold (lib : Lib) (self : ElastiCache) (w : list Event) :
  new_client lib self w
  = match get_cluster_nodes lib self w with
    | (Raise e, self1, w1) => (Raise e, self1, w1)
    | (Return nodes, self1, w1) =>
        let fresh := mkClient (constructions w1) nodes None in
        match Client_error lib w1 nodes with
        | Some e => (Raise e, self1, w1 ++ [EvClient nodes])
        | None =>
            match configured_behaviors self with
            | None =>
                (Return fresh, set_container_client fresh self1,
                 w1 ++ [EvClient nodes])
            | Some b =>
                match behaviors_error lib (w1 ++ [EvClient nodes]) fresh b
                with
                | Some e =>
                    (Raise e, self1,
                     w1 ++ [EvClient nodes; EvBehaviors (constructions w1) b])
                | None =>
                    let client := mkClient (constructions w1) nodes (Some b) in
                    (Return client, set_container_client client self1,
                     w1 ++ [EvClient nodes; EvBehaviors (constructions w1) b])
                end
            end
        end
    end.
Proof.
  unfold new_client, lib_Client, set_behaviors, configured_behaviors. run.
  destruct (get_cluster_nodes lib self w) as [[[nodes|e] self1] w1] eqn:Hn;
    [|reflexivity].
  destruct (get_cluster_nodes_options _ _ _ _ _ _ Hn) as (Ho & _ & _).
  cbn zeta. destruct (Client_error lib w1 nodes); [reflexivity|].
  rewrite Ho. destruct (dict_truthy (_options self)); cbn; [|reflexivity].
  destruct (behaviors_error lib _ _ _); cbn; rewrite <- app_assoc;
    reflexivity.
Qed.

(** X5. With no handle cached, when [get_cluster_nodes] raises, [_cache]
    raises the same exception without having called pylibmc; the instance
    is exactly as it was before the access, with no handle and no node list,
    so the next access starts over with the discovery. *)
Theorem cache_property_discovery_failure (lib : Lib) (self : ElastiCache)
    (w : list Event) (e : PyExn) (self1 : ElastiCache) (w1 : list Event) :
  container_client self = None ->
  get_cluster_nodes lib self w = (Raise e, self1, w1) ->
  _cache lib self w = (Raise e, self, w1) /\
  constructions w1 = constructions w /\
  behaviors_applied w1 = behaviors_applied w /\
  container_client self = None /\
  _cluster_nodes_cache self = None.
Proof.
  intros Hnone Hrun.
  assert (Hself : self1 = self /\ _cluster_nodes_cache self = None).
  { destruct (_cluster_nodes_cache self) as [stored|] eqn:Hc.
    - rewrite (get_cluster_nodes_hit lib _ _ stored Hc) in Hrun.
      discriminate Hrun.
    - split; [|reflexivity]. pose proof Hrun as Ht.
      apply get_cluster_nodes_trace in Ht.
      destruct Ht as [(_ & -> & _)|(? & ? & _ & _ & [->|(n & Hr & _)])];
        [reflexivity | reflexivity | discriminate Hr]. }
  destruct Hself as (-> & Hcache).
  assert (Hcounts : constructions w1 = constructions w /\
                    behaviors_applied w1 = behaviors_applied w).
  { pose proof Hrun as Ht. apply get_cluster_nodes_trace in Ht.
    destruct Ht as [(-> & _)|(server & port & _ & -> & _)]; [auto|].
    unfold constructions, behaviors_applied. rewrite !count_app. cbn.
    split; lia. }
  rewrite (_cache_miss lib _ _ Hnone), new_client_unfold, Hrun.
  repeat split; try assumption; apply Hcounts.
Qed.

Lemma cache_property_discovery_failure_witness :
  _cache Sample.lib_unresolvable Sample.cold []
  = (Raise (cannot_connect Sample.endpoint Sample.gai), Sample.cold,
     [Faulty.discovery_call]).
Proof.
  exact (proj1 (cache_property_discovery_failure Sample.lib_unresolvable
                  Sample.cold [] (cannot_connect Sample.endpoint Sample.gai)
                  Sample.cold [Faulty.discovery_call] eq_refl
                  ltac:(vm_compute; reflexivity))).
Defined.

(** X6. With no handle cached and the node list obtained, when pylibmc's
    [Client] raises, [_cache] raises that exception and stores no handle;
    the node list stays cached, so the next access asks pylibmc again
    without a new discovery. *)
Theorem cache_property_construction_failure (lib : Lib) (self : ElastiCache)
    (w : list Event) (nodes : PyVal) (self1 : ElastiCache)
    (w1 : list Event) (e : PyExn) :
  container_client self = None ->
  get_cluster_nodes lib self w = (Return nodes, self1, w1) ->
  Client_error lib w1 nodes = Some e ->
  _cache lib self w = (Raise e, self1, w1 ++ [EvClient nodes]) /\
  container_client self1 = None /\
  _cluster_nodes_cache self1 = Some nodes /\
  forall w2, get_cluster_nodes lib self1 w2 = (Return nodes, self1, w2).
Proof.
  intros Hnone Hrun Herr.
  rewrite (_cache_miss lib _ _ Hnone), new_client_unfold, Hrun. cbn zeta.
  rewrite Herr. split; [reflexivity|].
  pose proof (get_cluster_nodes_return_cached _ _ _ _ _ _ Hrun) as Hc.
  destruct (get_cluster_nodes_options _ _ _ _ _ _ Hrun) as (_ & Hl & Hcl).
  repeat split.
  - unfold container_client in *. rewrite Hl, Hcl. exact Hnone.
  - exact Hc.
  - intros w2. apply get_cluster_nodes_hit. exact Hc.
Qed.

Lemma cache_property_construction_failure_witness :
  _cache Faulty.lib_bad_servers Sample.cold []
  = (Raise Faulty.bad_servers, Faulty.discovered,
     [Faulty.discovery_call] ++ [EvClient Sample.nodes1]).
Proof.
  exact (proj1 (cache_property_construction_failure Faulty.lib_bad_servers
                  Sample.cold [] Sample.nodes1 Faulty.discovered
                  [Faulty.discovery_call] Faulty.bad_servers eq_refl
                  ltac:(vm_compute; reflexivity) eq_refl)).
Defined.

(** X12. With no handle cached, the node list obtained and the handle
    constructed, when the assignment of the behaviors raises, [_cache]
    raises that exception and the constructed handle is dropped: nothing is
    stored on the container, and the next access goes through the
    construction again. *)
Theorem cache_property_behaviors_failure (lib : Lib) (self : ElastiCache)
    (w : list Event) (nodes : PyVal) (self1 : ElastiCache)
    (w1 : list Event) (b : PyVal) (e : PyExn) :
  container_client self = None ->
  get_cluster_nodes lib self w = (Return nodes, self1, w1) ->
  Client_error lib w1 nodes = None ->
  configured_behaviors self = Some b ->
  behaviors_error lib (w1 ++ [EvClient nodes])
    (mkClient (constructions w1) nodes None) b = Some e ->
  _cache lib self w
  = (Raise e, self1,
     w1 ++ [EvClient nodes; EvBehaviors (constructions w1) b]) /\
  container_client self1 = None /\
  forall w2, _cache lib self1 w2 = new_client lib self1 w2.
Proof.
  intros Hnone Hrun Hok Hb Herr.
  rewrite (_cache_miss lib _ _ Hnone), new_client_unfold, Hrun. cbn zeta.
  rewrite Hok, Hb, Herr. split; [reflexivity|].
  destruct (get_cluster_nodes_options _ _ _ _ _ _ Hrun) as (_ & Hl & Hcl).
  assert (Hnone1 : container_client self1 = None).
  { unfold container_client in *. rewrite Hl, Hcl. exact Hnone. }
  split; [exact Hnone1|].
  intros w2. apply _cache_miss. exact Hnone1.
Qed.

Lemma cache_property_behaviors_failure_witness :
  _cache Faulty.lib_bad_behaviors Sample.cold []
  = (Raise Faulty.bad_behaviors, Faulty.discovered,
     [Faulty.discovery_call]
       ++ [EvClient Sample.nodes1; EvBehaviors 0 (PyDict Sample.behaviors)]).
Proof.
  exact (proj1 (cache_property_behaviors_failure Faulty.lib_bad_behaviors
                  Sample.cold [] Sample.nodes1 Faulty.discovered
                  [Faulty.discovery_call] (PyDict Sample.behaviors)
                  Faulty.bad_behaviors eq_refl
                  ltac:(vm_compute; reflexivity) eq_refl
                  ltac:(vm_compute; reflexivity) eq_refl)).
Defined.

(** What a returning construction leaves behind. *)
Lemma new_client_return_inv (lib : Lib) (self : ElastiCache) (w : list Event)
    (c : Client) (self2 : ElastiCache) (w2 : list Event) :
  new_client lib self w = (Return c, self2, w2) ->
  exists nodes self1 w1,
    get_cluster_nodes lib self w = (Return nodes, self1, w1) /\
    c = built_client self w1 nodes /\
    self2 = set_container_client c self1 /\
    w2 = w1 ++ build_calls self w1 nodes.
Proof.
  rewrite new_client_unfold.
  destruct (get_cluster_nodes lib self w) as [[[nodes|e] self1] w1] eqn:Hn;
    [|discriminate].
  cbn zeta. destruct (Client_error lib w1 nodes); [discriminate|].
  unfold built_client, build_calls.
  destruct (configured_behaviors self) as [b|].
  - destruct (behaviors_error lib _ _ _); [discriminate|].
    intros [= <- <- <-]. exists nodes, self1, w1. auto.
  - intros [= <- <- <-]. exists nodes, self1, w1. auto.
Qed.

(** X7. One [_cache] access, whether it returns or raises, makes at most
    one discovery call, one construction and one assignment of behaviors,
    assigns behaviors only after a construction, and never enters the base
    class: nothing is retried inside the access.  With a handle cached it
    makes no call at all. *)
Theorem cache_property_cost_bound (lib : Lib) (self : ElastiCache)
    (w : list Event) (r : Outcome Client) (self1 : ElastiCache)
    (w1 : list Event) :
  _cache lib self w = (r, self1, w1) ->
  exists d,
    w1 = w ++ d /\
    discoveries d <= 1 /\ constructions d <= 1 /\
    behaviors_applied d <= 1 /\ super_calls d = 0 /\
    behaviors_applied d <= constructions d /\
    (is_cached (container_client self) = true -> d = []).
Proof.
  destruct (container_client self) as [c|] eqn:Hc.
  - rewrite (_cache_hit lib _ _ c Hc). intros [= <- <- <-].
    exists []. rewrite app_nil_r. cbn. repeat split; lia.
  - rewrite (_cache_miss lib _ _ Hc), new_client_unfold.
    destruct (get_cluster_nodes lib self w) as [[r0 self0] w0] eqn:Hn.
    pose proof Hn as Ht. apply get_cluster_nodes_trace in Ht.
    assert (Hd0 : exists d0, w0 = w ++ d0 /\ discoveries d0 <= 1 /\
                    constructions d0 = 0 /\ behaviors_applied d0 = 0 /\
                    super_calls d0 = 0).
    { destruct Ht as [(-> & _)|(server & port & _ & -> & _)].
      - exists []. rewrite app_nil_r. cbn. repeat split; lia.
      - eexists. split; [reflexivity|]. cbn. repeat split; lia. }
    destruct Hd0 as (d0 & -> & Hk1 & Hk2 & Hk3 & Hk4).
    assert (Hfin : forall tail,
              constructions tail <= 1 -> behaviors_applied tail <= 1 ->
              discoveries tail = 0 -> super_calls tail = 0 ->
              behaviors_applied tail <= constructions tail ->
              exists d,
                (w ++ d0) ++ tail = w ++ d /\
                discoveries d <= 1 /\ constructions d <= 1 /\
                behaviors_applied d <= 1 /\ super_calls d = 0 /\
                behaviors_applied d <= constructions d /\
                (is_cached (@None Client) = true -> d = [])).
    { intros tail H1 H2 H3 H4 H5. exists (d0 ++ tail).
      rewrite app_assoc.
      unfold discoveries, constructions, behaviors_applied, super_calls in *.
      rewrite !count_app. repeat split; try lia. discriminate. }
    destruct r0 as [nodes|e].
    + cbn zeta. destruct (Client_error lib _ nodes).
      { intros [= <- <- <-]. apply Hfin; cbn; lia. }
      destruct (configured_behaviors self) as [b|].
      * destruct (behaviors_error lib _ _ _); intros [= <- <- <-];
          apply Hfin; cbn; lia.
      * intros [= <- <- <-]. apply Hfin; cbn; lia.
    + intros [= <- <- <-]. rewrite <- (app_nil_r (w ++ d0)).
      apply Hfin; cbn; lia.
Qed.

Lemma cache_property_cost_bound_witness :
  exists d,
    [Faulty.discovery_call; EvClient Sample.nodes1] = [] ++ d /\
    discoveries d <= 1 /\ constructions d <= 1.
Proof.
  destruct (cache_property_cost_bound Faulty.lib_bad_servers Sample.cold []
              (Raise Faulty.bad_servers) Faulty.discovered
              [Faulty.discovery_call; EvClient Sample.nodes1]
              ltac:(vm_compute; reflexivity))
    as (d & H1 & H2 & H3 & _).
  exists d. auto.
Defined.

(** X8. A handle that [_cache] had to build is built against the very
    node list that is cached when the access returns, it is the handle now
    stored on the container, and no earlier construction produced it. *)
Theorem built_handle_matches_cached_nodes (lib : Lib) (self : ElastiCache)
    (w : list Event) (c : Client) (self2 : ElastiCache) (w2 : list Event) :
  container_client self = None ->
  _cache lib self w = (Return c, self2, w2) ->
  _cluster_nodes_cache self2 = Some (client_servers c) /\
  container_client self2 = Some c /\
  client_id c = constructions w /\
  constructions w2 = S (constructions w) /\
  _servers self2 = _servers self /\
  _options self2 = _options self /\
  _discovery_timeout self2 = _discovery_timeout self /\
  _ignore_cluster_errors self2 = _ignore_cluster_errors self.
Proof.
  intros Hnone. rewrite (_cache_miss lib _ _ Hnone). intros Hrun.
  pose proof (new_client_counts lib _ _ _ _ _ Hrun) as (Hk & _ & _ & Hst).
  apply new_client_return_inv in Hrun.
  destruct Hrun as (nodes & self1 & w1 & Hn & -> & -> & ->).
  pose proof (get_cluster_nodes_return_cached _ _ _ _ _ _ Hn) as Hc.
  pose proof Hn as Ht. apply get_cluster_nodes_trace in Ht.
  assert (Hw1 : constructions w1 = constructions w).
  { destruct Ht as [(-> & _)|(server & port & _ & -> & _)]; [reflexivity|].
    unfold constructions. rewrite count_app. cbn. lia. }
  assert (Hfields :
    _servers self1 = _servers self /\ _options self1 = _options self /\
    _discovery_timeout self1 = _discovery_timeout self /\
    _ignore_cluster_errors self1 = _ignore_cluster_errors self).
  { destruct Ht as [(_ & -> & _)|(? & ? & _ & _ & [->|(n & _ & ->)])];
      repeat split. }
  destruct Hfields as (F1 & F2 & F3 & F4).
  unfold set_container_client.
  destruct (_local self1); cbn; repeat split; try assumption.
Qed.

Lemma built_handle_matches_cached_nodes_witness :
  _cluster_nodes_cache Sample.warm = Some (client_servers Sample.client0) /\
  client_id Sample.client0 = constructions [].
Proof.
  destruct (built_handle_matches_cached_nodes Sample.lib Sample.cold []
              Sample.client0 Sample.warm
              [Faulty.discovery_call; EvClient Sample.nodes1;
               EvBehaviors 0 (PyDict Sample.behaviors)]
              eq_refl ltac:(vm_compute; reflexivity))
    as (H1 & _ & H2 & _).
  split; [exact H1 | exact H2].
Defined.

(** X9. The handle [_cache] builds is stored in one place only.  On an
    instance with a thread-local container it goes on the container and the
    [_client] attribute of the instance itself is neither read nor written;
    on an instance without one it goes on the instance and no container
    appears. *)
Theorem cache_property_container (lib : Lib) (self : ElastiCache)
    (w : list Event) (c : Client) (self2 : ElastiCache) (w2 : list Event) :
  container_client self = None ->
  _cache lib self w = (Return c, self2, w2) ->
  match _local self with
  | Some _ => _local self2 = Some (Some c) /\ _client self2 = _client self
  | None => _local self2 = None /\ _client self2 = Some c
  end.
Proof.
  intros Hnone. rewrite (_cache_miss lib _ _ Hnone). intros Hrun.
  apply new_client_return_inv in Hrun.
  destruct Hrun as (nodes & self1 & w1 & Hn & -> & -> & ->).
  destruct (get_cluster_nodes_options _ _ _ _ _ _ Hn) as (_ & Hl & Hcl).
  unfold set_container_client. rewrite Hl.
  destruct (_local self); cbn; split; auto.
Qed.

Lemma cache_property_container_witness :
  exists self2 w2,
    _cache Sample.lib Faulty.cold_local [] = (Return Sample.client0, self2, w2)
    /\ _local self2 = Some (Some Sample.client0)
    /\ _client self2 = Some Faulty.stray.
Proof.
  assert (Hrun :
    _cache Sample.lib Faulty.cold_local []
    = (Return Sample.client0,
       snd (fst (_cache Sample.lib Faulty.cold_local [])),
       snd (_cache Sample.lib Faulty.cold_local [])))
    by (vm_compute; reflexivity).
  eexists _, _. split; [exact Hrun|].
  exact (cache_property_container Sample.lib Faulty.cold_local []
           Sample.client0 _ _ eq_refl Hrun).
Defined.

Lemma lookup_Some_truthy (d : gmap string PyVal) (key : string) (v : PyVal) :
  d !! key = Some v -> dict_truthy d = true.
Proof.
  intros Hk. unfold dict_truthy. destruct (decide (d = ∅)) as [->|_];
    [|reflexivity].
  rewrite lookup_empty in Hk. discriminate Hk.
Qed.

(** X13. The behaviors a built handle receives are read off the options
    alone: the value under [behaviors] when the options have that entry,
    whatever else they hold; the whole options mapping, with
    [IGNORE_CLUSTER_ERRORS] and every other top-level entry in it, when they
    are non-empty without that entry; and no assignment at all when they are
    empty. *)
Theorem built_handle_behaviors (lib : Lib) (self : ElastiCache)
    (w : list Event) (c : Client) (self2 : ElastiCache) (w2 : list Event) :
  container_client self = None ->
  _cache lib self w = (Return c, self2, w2) ->
  client_behaviors c
  = match _options self !! "behaviors" with
    | Some b => Some b
    | None =>
        if decide (_options self = ∅) then None
        else Some (PyDict (_options self))
    end /\
  behaviors_applied w2
  = behaviors_applied w + (if decide (_options self = ∅) then 0 else 1).
Proof.
  intros Hnone. rewrite (_cache_miss lib _ _ Hnone). intros Hrun.
  pose proof (new_client_counts lib _ _ _ _ _ Hrun) as (_ & _ & Hb & _).
  apply new_client_return_inv in Hrun.
  destruct Hrun as (nodes & self1 & w1 & _ & -> & _ & _).
  split.
  - unfold built_client, configured_behaviors, dict_get. cbn.
    destruct (_options self !! "behaviors") as [b|] eqn:Hk.
    + rewrite (lookup_Some_truthy _ _ _ Hk). reflexivity.
    + unfold dict_truthy. destruct (decide _); reflexivity.
  - rewrite Hb. unfold dict_truthy. destruct (decide _); reflexivity.
Qed.

Lemma built_handle_behaviors_witness :
  exists c self2 w2,
    _cache Sample.lib Faulty.cold_flat [] = (Return c, self2, w2) /\
    client_behaviors c = Some (PyDict Faulty.flat_options).
Proof.
  assert (Hrun :
    _cache Sample.lib Faulty.cold_flat []
    = (Return (mkClient 0 Sample.nodes1 (Some (PyDict Faulty.flat_options))),
       snd (fst (_cache Sample.lib Faulty.cold_flat [])),
       snd (_cache Sample.lib Faulty.cold_flat [])))
    by (vm_compute; reflexivity).
  eexists _, _, _. split; [exact Hrun|].
  rewrite (proj1 (built_handle_behaviors Sample.lib Faulty.cold_flat [] _ _ _
                    eq_refl Hrun)).
  vm_compute. reflexivity.
Defined.
